(** * Document parser: metric extraction and table detection

    A shallow embedding of [mcp-servers/document-parser/main.py]
    (class [DocumentParser]) and the properties its specification states.

    Modelling conventions.
    - A Python [str] is a list of characters; a character is a value of
      [ascii], read as the code point U+0000..U+00FF.  [lower], [strip],
      the regex classes [\s], [\d] and [.] are Python's, restricted to that
      range.
    - A Python [float] obtained from a decimal numeral is kept as the
      rational number the numeral denotes, or as an infinity when the numeral
      is beyond the binary64 range (see [py_float]).
    - Exceptions are explicit: a computation that may raise returns a
      [result]. *)

From Stdlib Require Import Ascii String.
From Stdlib Require Import List Bool Arith ZArith QArith Lia.
Import ListNotations.

Set Implicit Arguments.
Local Open Scope nat_scope.
Local Open Scope list_scope.

(** ** Characters and strings *)

Definition pystr := list ascii.

(** [str "abc"] is the Python string literal ['abc']. *)
Definition str (s : string) : pystr := list_ascii_of_string s.

Definition code (c : ascii) : nat := nat_of_ascii c.

Definition chr_eqb (a b : ascii) : bool := Ascii.eqb a b.

(** The line feed, ['\n']. *)
Definition NL : ascii := ascii_of_nat 10.

Definition in_range (lo hi : nat) (c : ascii) : bool :=
  (lo <=? code c) && (code c <=? hi).

(** [c.isspace()], which is also the regex class [\s] on [str] patterns:
    TAB..CR, FS..US, SPACE, NEL (U+0085) and NBSP (U+00A0). *)
Definition is_space (c : ascii) : bool :=
  in_range 9 13 c || in_range 28 32 c || (code c =? 133) || (code c =? 160).

(** The regex class [\d] (and [[0-9]]): the decimal digits; below U+0100
    these are ['0'..'9'] only. *)
Definition is_digit (c : ascii) : bool := in_range 48 57 c.

(** One character of [s.lower()]: ['A'..'Z'] and the Latin-1 capitals
    U+00C0..U+00DE (the multiplication sign U+00D7 apart) move down by 32. *)
Definition lower_char (c : ascii) : ascii :=
  if in_range 65 90 c || (in_range 192 222 c && negb (code c =? 215))
  then ascii_of_nat (code c + 32)
  else c.

(** [s.lower()] *)
Definition lower (s : pystr) : pystr := map lower_char s.

(** [s.startswith(p)] *)
Fixpoint starts_with (p s : pystr) : bool :=
  match p, s with
  | [], _ => true
  | _ :: _, [] => false
  | a :: p', b :: s' => chr_eqb a b && starts_with p' s'
  end.

(** [p in s]: [p] occurs in [s] as a substring. *)
Fixpoint contains (p s : pystr) : bool :=
  starts_with p s ||
  match s with
  | [] => false
  | _ :: s' => contains p s'
  end.

(** [s.replace(',', '')] *)
Definition remove_commas (s : pystr) : pystr :=
  filter (fun c => negb (chr_eqb c ","%char)) s.

Fixpoint lstrip (s : pystr) : pystr :=
  match s with
  | c :: s' => if is_space c then lstrip s' else s
  | [] => []
  end.

Definition rstrip (s : pystr) : pystr := rev (lstrip (rev s)).

(** [s.strip()] *)
Definition strip (s : pystr) : pystr := rstrip (lstrip s).

(** [s.split('\n')]: never empty, [''.split('\n') = ['']]. *)
Fixpoint split_lines (s : pystr) : list pystr :=
  match s with
  | [] => [[]]
  | c :: s' =>
      if chr_eqb c NL then [] :: split_lines s'
      else match split_lines s' with
           | l :: ls => (c :: l) :: ls
           | [] => [[c]]
           end
  end.

(** ['\n'.join(lines)] *)
Fixpoint join_lines (lines : list pystr) : pystr :=
  match lines with
  | [] => []
  | [l] => l
  | l :: ls => l ++ NL :: join_lines ls
  end.

(** ** Unit resolver: [DocumentParser._determine_unit] *)

Definition _determine_unit (context : pystr) : pystr :=
  let context_lower := lower context in
  if contains (str "billion") context_lower || contains (str " b") context_lower
  then str "billions"
  else if contains (str "million") context_lower || contains (str " m") context_lower
  then str "millions"
  else if contains (str "thousand") context_lower || contains (str " k") context_lower
  then str "thousands"
  else if contains (str "%") context_lower || contains (str "percent") context_lower
  then str "percentage"
  else if contains (str "ratio") context_lower
  then str "ratio"
  else str "units".

(** ** Regular expressions: the fragment of [re] the parser uses

    Every repetition in the source patterns ([[\s:$]*], [[0-9,]+], [\s+],
    [\d+], [.*], [[0-9]*]) is a greedy repetition of a one-character atom,
    every [?] is greedy, alternatives are tried left to right, and there is
    one capturing group. *)

Inductive regex : Type :=
| Eps  : regex                          (* the empty pattern *)
| Cls  : (ascii -> bool) -> regex       (* one character of a class *)
| Seq  : regex -> regex -> regex        (* r1 r2 *)
| Alt  : regex -> regex -> regex        (* r1|r2 *)
| Star : (ascii -> bool) -> regex       (* c*, greedy, c a one-character atom *)
| Grp  : regex -> regex.                (* ( r ), capturing group 1 *)

Declare Scope re_scope.
Delimit Scope re_scope with re.
Bind Scope re_scope with regex.
Infix ";;" := Seq (at level 61, right associativity) : re_scope.

(** c+ *)
Definition Plus (p : ascii -> bool) : regex := Seq (Cls p) (Star p).

(** r?  (greedy: [r] is tried before the empty match) *)
Definition Opt (r : regex) : regex := Alt r Eps.

(** A literal character.  With [ignorecase] (the flag [re.IGNORECASE]) it
    matches both cases of a letter. *)
Definition chr (ignorecase : bool) (c : ascii) : ascii -> bool :=
  fun x => if ignorecase then chr_eqb (lower_char x) (lower_char c)
           else chr_eqb x c.

(** A literal word. *)
Fixpoint lit (ignorecase : bool) (w : pystr) : regex :=
  match w with
  | [] => Eps
  | [c] => Cls (chr ignorecase c)
  | c :: w' => Seq (Cls (chr ignorecase c)) (lit ignorecase w')
  end.

(** r1|r2|...|rn *)
Fixpoint alts (rs : list regex) : regex :=
  match rs with
  | [] => Eps
  | [r] => r
  | r :: rs' => Alt r (alts rs')
  end.

(** [.] (without [re.DOTALL]): any character but the line feed. *)
Definition dot : ascii -> bool := fun c => negb (chr_eqb c NL).

(** A match object: [group(0)], [group(1)] ([None] when the group took no
    part in the match) and the text after the match. *)
Record rmatch : Type := {
  group0 : pystr;
  group1 : option pystr;
  after  : pystr
}.

(** Greedy repetition of a one-character atom, longest first. *)
Fixpoint run_star (A : Type) (p : ascii -> bool) (s : pystr)
                  (k : pystr -> option A) : option A :=
  match s with
  | c :: s' =>
      if p c then
        match run_star p s' k with
        | Some x => Some x
        | None => k s
        end
      else k s
  | [] => k s
  end.

(** The backtracking matcher, in continuation-passing style: [run r s g k]
    matches [r] at the head of [s] with [g] the capture so far, and hands
    the rest of the text and the capture to [k]; the first success in
    priority order is the answer. *)
Fixpoint run (A : Type) (r : regex) (s : pystr) (g : option pystr)
             (k : pystr -> option pystr -> option A) : option A :=
  match r with
  | Eps => k s g
  | Cls p =>
      match s with
      | c :: s' => if p c then k s' g else None
      | [] => None
      end
  | Seq r1 r2 => run r1 s g (fun s' g' => run r2 s' g' k)
  | Alt r1 r2 =>
      match run r1 s g k with
      | Some x => Some x
      | None => run r2 s g k
      end
  | Star p => run_star p s (fun s' => k s' g)
  | Grp r' =>
      run r' s g (fun s' _ => k s' (Some (firstn (length s - length s') s)))
  end.

(** A match of [r] starting at the head of [s].  With [must_advance] the
    empty match is refused (the scanner sets it after an empty match). *)
Definition match_at (r : regex) (s : pystr) (must_advance : bool)
  : option rmatch :=
  run r s None
      (fun s' g =>
         if must_advance && (length s' =? length s) then None
         else Some {| group0 := firstn (length s - length s') s;
                      group1 := g;
                      after := s' |}).

(** [re.search(r, s)]: the match at the leftmost position that has one. *)
Fixpoint re_search (r : regex) (s : pystr) : option rmatch :=
  match match_at r s false with
  | Some m => Some m
  | None =>
      match s with
      | [] => None
      | _ :: s' => re_search r s'
      end
  end.

(** Resuming the scan after a match that consumed [n] characters of
    [c :: s']. *)
Definition next_skip (n : nat) : nat := pred n.

(** [re.finditer(r, s)]: the non-overlapping matches, left to right.
    [skip] is the number of characters still covered by the last match.
    After an empty match the same position is tried once more for a
    non-empty match. *)
Fixpoint scan (r : regex) (s : pystr) (skip : nat) : list rmatch :=
  let advance (n : nat) : list rmatch :=
    match s with
    | [] => []
    | _ :: s' => scan r s' n
    end in
  match skip with
  | S n => advance n
  | O =>
      match match_at r s false with
      | None => advance 0
      | Some m =>
          match group0 m with
          | [] =>
              m :: match match_at r s true with
                   | Some m2 => m2 :: advance (next_skip (length (group0 m2)))
                   | None => advance 0
                   end
          | _ :: _ => m :: advance (next_skip (length (group0 m)))
          end
      end
  end.

Definition finditer (r : regex) (s : pystr) : list rmatch := scan r s 0.

(** ** Exceptions *)

Inductive exn : Type :=
| ValueError
| IndexError
| AttributeError
| HTTPException (status_code : nat).

Inductive result (A : Type) : Type :=
| Ok (a : A)
| Raise (e : exn).

Arguments Ok {A} a.
Arguments Raise {A} e.

Definition bind (A B : Type) (x : result A) (f : A -> result B) : result B :=
  match x with
  | Ok a => f a
  | Raise e => Raise e
  end.

(** ** Floats

    [Fin q] is the binary64 number nearest to the rational [q]; [Inf b] is
    the infinity of sign [b].  Rounding inside the finite range is not
    carried out: a float read from a numeral is represented by the numeral's
    value, in lowest terms. *)

Inductive pyfloat : Type :=
| Fin (q : Q)
| Inf (negative : bool).

(** The numeral [m / 10^e], e.g. [decimal 215 2] for [2.15]. *)
Definition decimal (m : Z) (e : nat) : pyfloat :=
  Fin (Qred (m # Z.to_pos (10 ^ Z.of_nat e))).

(** Round-to-nearest-even sends every real at or above
    [2^1024 - 2^970] (the largest binary64 number plus half an ulp) to
    infinity. *)
Definition float_overflow : Z := (2 ^ 1024 - 2 ^ 970)%Z.

Definition is_finite (x : pyfloat) : bool :=
  match x with
  | Fin _ => true
  | Inf _ => false
  end.

(** [0 <= x] *)
Definition non_negative (x : pyfloat) : bool :=
  match x with
  | Fin q => Qle_bool 0 q
  | Inf negative => negb negative
  end.

Definition digit_value (c : ascii) : Z := Z.of_nat (code c - 48).

Fixpoint digits_value (ds : pystr) (acc : Z) : Z :=
  match ds with
  | [] => acc
  | d :: ds' => digits_value ds' (10 * acc + digit_value d)%Z
  end.

Fixpoint span_digits (s : pystr) : pystr * pystr :=
  match s with
  | c :: s' =>
      if is_digit c then let (ds, rest) := span_digits s' in (c :: ds, rest)
      else ([], s)
  | [] => ([], [])
  end.

Definition is_empty (s : pystr) : bool :=
  match s with
  | [] => true
  | _ :: _ => false
  end.

(** An unsigned decimal numeral [digits], [digits.], [digits.digits] or
    [.digits] as the pair (all its digits read as an integer, the number of
    digits after the point); [None] for any other text. *)
Definition parse_decimal (s : pystr) : option (Z * nat) :=
  let (ip, rest) := span_digits s in
  match rest with
  | [] => if is_empty ip then None else Some (digits_value ip 0%Z, 0)
  | c :: fp =>
      if chr_eqb c "."%char && forallb is_digit fp
         && negb (is_empty ip && is_empty fp)
      then Some (digits_value (ip ++ fp) 0%Z, length fp)
      else None
  end.

(** The float nearest to [(-1)^negative * m / 10^e]. *)
Definition round_decimal (negative : bool) (m : Z) (e : nat) : pyfloat :=
  if (float_overflow * 10 ^ Z.of_nat e <=? m)%Z then Inf negative
  else decimal (if negative then (- m)%Z else m) e.

(** [float(s)] for a text [s] of white space, a sign, digits and a decimal
    point: surrounding white space is dropped, one sign is allowed, and
    anything that is not a decimal numeral raises [ValueError].  The
    exponent, underscore, [inf] and [nan] forms of Python's grammar all need
    a character outside that alphabet and are not modelled; the extractor
    only passes digits and points (lemma [number_alphabet]). *)
Definition py_float (s : pystr) : result pyfloat :=
  let t := strip s in
  let (negative, u) :=
    match t with
    | c :: t' =>
        if chr_eqb c "-"%char then (true, t')
        else if chr_eqb c "+"%char then (false, t')
        else (false, t)
    | [] => (false, t)
    end in
  match parse_decimal u with
  | Some (m, e) => Ok (round_decimal negative m e)
  | None => Raise ValueError
  end.

(** ** The pattern registry: [DocumentParser._load_financial_patterns] *)

(** The patterns are compiled with [re.IGNORECASE]. *)
Definition word (w : string) : regex := lit true (str w).

(** [[\s:$]] *)
Definition sep_cur : ascii -> bool :=
  fun c => is_space c || chr_eqb c ":"%char || chr_eqb c "$"%char.

(** [[\s:]] *)
Definition sep : ascii -> bool :=
  fun c => is_space c || chr_eqb c ":"%char.

(** [[0-9,]] *)
Definition digit_comma : ascii -> bool :=
  fun c => is_digit c || chr_eqb c ","%char.

(** [[0-9,]+\.?[0-9]*] *)
Definition number : regex :=
  (Plus digit_comma ;; Opt (Cls (chr true "."%char)) ;; Star is_digit)%re.

(** [\s*(?:million|billion|thousand|M|B|K)?] *)
Definition magnitude : regex :=
  (Star is_space ;;
   Opt (alts [word "million"; word "billion"; word "thousand";
              word "M"; word "B"; word "K"]))%re.

(** [%?] *)
Definition percent : regex := Opt (Cls (chr true "%"%char)).

(** [label sep* ( number ) tail], the shape of every registry pattern;
    [tail] is [Eps] for a pattern that ends at the group. *)
Definition metric_pattern (label : regex) (sp : ascii -> bool) (tail : regex)
  : regex :=
  (label ;; Star sp ;; Grp number ;; tail)%re.

(** The dict of the source, in insertion order (the order of [.items()]). *)
Definition financial_patterns : list (pystr * regex) :=
  [ (str "revenue",
     metric_pattern
       (alts [word "revenue"; word "sales"; word "net sales";
              word "total revenue"]) sep_cur magnitude);
    (str "net_income",
     metric_pattern
       (alts [word "net income"; word "net profit"; word "net earnings"])
       sep_cur magnitude);
    (str "eps",
     metric_pattern (alts [word "earnings per share"; word "eps"]) sep_cur Eps);
    (str "pe_ratio",
     metric_pattern
       (alts [word "p/e ratio"; word "pe ratio";
              (word "price" ;; Cls dot ;; word "earnings")%re]) sep Eps);
    (str "pb_ratio",
     metric_pattern
       (alts [word "p/b ratio"; word "pb ratio";
              (word "price" ;; Cls dot ;; word "book")%re]) sep Eps);
    (str "debt_to_equity",
     metric_pattern
       (alts [(word "debt" ;; Cls dot ;; word "to" ;; Cls dot ;; word "equity")%re;
              word "debt/equity"; word "d/e"]) sep Eps);
    (str "current_ratio",
     metric_pattern (word "current ratio") sep Eps);
    (str "gross_margin",
     metric_pattern
       (alts [word "gross margin"; word "gross profit margin"]) sep percent);
    (str "operating_margin",
     metric_pattern
       (alts [word "operating margin"; word "operating profit margin"])
       sep percent);
    (str "net_margin",
     metric_pattern
       (alts [word "net margin"; word "net profit margin"]) sep percent);
    (str "roe",
     metric_pattern (alts [word "return on equity"; word "roe"]) sep percent);
    (str "roa",
     metric_pattern (alts [word "return on assets"; word "roa"]) sep percent);
    (str "cash_flow",
     metric_pattern
       (alts [word "cash flow"; word "operating cash flow"]) sep_cur magnitude);
    (str "market_cap",
     metric_pattern
       (alts [word "market cap"; word "market capitalization"])
       sep_cur magnitude) ].

(** ** Data model *)

(** The pydantic model [FinancialMetric]. *)
Module FinancialMetric.
Record t : Type := make {
  name : pystr;
  value : pyfloat;
  unit : pystr;
  period : pystr;
  source : pystr;
  confidence : pyfloat
}.
End FinancialMetric.

(** A cell of a tabular source. *)
Inductive cell : Type :=
| Number (x : pyfloat)
| Text (s : pystr)
| Empty.

(** One row record of [df.to_dict('records')]: column name to cell. *)
Definition record := list (pystr * cell).

(** The two dict shapes that appear in [tables]:
    [{'type': 'extracted_table', 'rows': ..., 'confidence': ...}] and
    [{'sheet_name': ..., 'data': ..., 'columns': ...}]. *)
Inductive table : Type :=
| extracted_table (rows : list pystr) (confidence : pyfloat)
| sheet_table (sheet_name : pystr) (data : list record) (columns : list pystr).

(** The dict the [parse_*] methods return. *)
Module Parsed.
Record t : Type := make {
  extracted_text : pystr;
  tables : list table;
  metrics : list FinancialMetric.t;
  confidence : pyfloat
}.
End Parsed.

(** ** Metric extractor: [DocumentParser._extract_financial_metrics] *)

(** [match.group(1).replace(',', '')]: a group that took no part in the
    match is [None], which has no [replace]. *)
Definition group1_replace (m : rmatch) : result pystr :=
  match group1 m with
  | Some g => Ok (remove_commas g)
  | None => Raise AttributeError
  end.

(** The body of the [try] block, up to [metrics.append]. *)
Definition metric_of_match (metric_name : pystr) (m : rmatch)
  : result FinancialMetric.t :=
  bind (group1_replace m) (fun value_str =>
  bind (py_float value_str) (fun value =>
  let unit := _determine_unit (group0 m) in
  Ok (FinancialMetric.make metric_name value unit (str "current")
        (str "document_extraction") (decimal 7 1)))).

(** [for match in matches: try: ... except (ValueError, IndexError):
    continue], with [metrics] the list built so far. *)
Fixpoint for_matches (metric_name : pystr) (matches : list rmatch)
                     (metrics : list FinancialMetric.t)
  : result (list FinancialMetric.t) :=
  match matches with
  | [] => Ok metrics
  | m :: matches' =>
      match metric_of_match metric_name m with
      | Ok metric => for_matches metric_name matches' (metrics ++ [metric])
      | Raise ValueError | Raise IndexError =>
          for_matches metric_name matches' metrics
      | Raise e => Raise e
      end
  end.

(** [for metric_name, pattern in self.financial_patterns.items(): ...] *)
Fixpoint for_patterns (patterns : list (pystr * regex)) (text_lower : pystr)
                      (metrics : list FinancialMetric.t)
  : result (list FinancialMetric.t) :=
  match patterns with
  | [] => Ok metrics
  | (metric_name, pattern) :: patterns' =>
      let matches := finditer pattern text_lower in
      bind (for_matches metric_name matches metrics)
           (fun metrics' => for_patterns patterns' text_lower metrics')
  end.

Definition _extract_financial_metrics (text : pystr)
  : result (list FinancialMetric.t) :=
  let text_lower := lower text in
  for_patterns financial_patterns text_lower [].

(** ** Table detector: [DocumentParser._extract_tables_from_text] *)

(** [\s+\d+.*\d+.*\d+] (no flags) *)
Definition table_row_pattern : regex :=
  (Plus is_space ;; Plus is_digit ;; Star dot ;; Plus is_digit ;;
   Star dot ;; Plus is_digit)%re.

(** [re.search(r'\s+\d+.*\d+.*\d+', line)] as a truth value. *)
Definition is_table_row (line : pystr) : bool :=
  match re_search table_row_pattern line with
  | Some _ => true
  | None => false
  end.

(** One iteration of [for line in lines], on the pair
    ([tables], [current_table]). *)
Definition table_step (st : list table * list pystr) (line : pystr)
  : list table * list pystr :=
  let (tables, current_table) := st in
  if is_table_row line then
    (tables, current_table ++ [strip line])
  else if negb (match current_table with [] => true | _ :: _ => false end) then
    ((if 2 <? length current_table
      then tables ++ [extracted_table current_table (decimal 6 1)]
      else tables),
     [])
  else (tables, current_table).

Definition _extract_tables_from_text (text : pystr) : list table :=
  let lines := split_lines text in
  fst (fold_left table_step lines ([], [])).

(** ** Orchestration: [parse_pdf], [parse_excel], [parse_csv]

    What the readers ([PyPDF2], [pandas]) hand over is taken as given: a
    page with its [extract_text()], a data frame with its [to_string()],
    [to_dict('records')] and [columns.tolist()].  Opening and reading the
    file is outside the model. *)

Section Orchestrator.

Variable Page : Type.
Variable extract_text : Page -> pystr.

Variable DataFrame : Type.
Variable to_string : DataFrame -> pystr.
Variable to_dict_records : DataFrame -> list record.
Variable columns_tolist : DataFrame -> list pystr.

(** The handler of [parse_pdf], [parse_excel] and [parse_csv].  As
    committed its last line is
    [raise HTTPException(status_code=500, f"... failed: {str(e)}")], a
    positional argument after a keyword one, which Python does not compile.
    It is read here as [raise HTTPException(status_code=500, detail=...)]:
    the [Raise] branch below is this reading, not the source; the [Ok]
    branch is the source. *)
Definition or_http_500 (A : Type) (x : result A) : result A :=
  match x with
  | Ok a => Ok a
  | Raise _ => Raise (HTTPException 500)
  end.

Definition parse_pdf (pages : list Page) : result Parsed.t :=
  or_http_500
    (let text :=
       fold_left (fun text page => text ++ extract_text page ++ [NL])
                 pages [] in
     let tables := _extract_tables_from_text text in
     bind (_extract_financial_metrics text) (fun metrics =>
     Ok (Parsed.make text tables metrics (decimal 8 1)))).

(** The loop state of [parse_excel]: [text], [tables], [all_metrics]. *)
Definition excel_state : Type :=
  (pystr * list table * list FinancialMetric.t)%type.

(** One iteration of [for sheet_name, df in excel_data.items()]. *)
Definition excel_step (st : excel_state) (sheet : pystr * DataFrame)
  : result excel_state :=
  let '(text, tables, all_metrics) := st in
  let (sheet_name, df) := sheet in
  let sheet_text := to_string df in
  let text := text ++ str "Sheet: " ++ sheet_name ++ [NL]
                   ++ sheet_text ++ [NL; NL] in
  let tables :=
    tables ++ [sheet_table sheet_name (to_dict_records df)
                           (columns_tolist df)] in
  bind (_extract_financial_metrics sheet_text) (fun sheet_metrics =>
  Ok (text, tables, all_metrics ++ sheet_metrics)).

Fixpoint excel_loop (excel_data : list (pystr * DataFrame))
                    (st : excel_state) : result excel_state :=
  match excel_data with
  | [] => Ok st
  | sheet :: excel_data' =>
      bind (excel_step st sheet) (fun st' => excel_loop excel_data' st')
  end.

(** [excel_data] is the dict of [pd.read_excel(..., sheet_name=None)], in
    sheet order. *)
Definition parse_excel (excel_data : list (pystr * DataFrame))
  : result Parsed.t :=
  or_http_500
    (bind (excel_loop excel_data ([], [], [])) (fun st =>
     let '(text, tables, all_metrics) := st in
     Ok (Parsed.make text tables all_metrics (decimal 9 1)))).

Definition parse_csv (df : DataFrame) : result Parsed.t :=
  or_http_500
    (let text := to_string df in
     let tables :=
       [sheet_table (str "csv_data") (to_dict_records df)
                    (columns_tolist df)] in
     bind (_extract_financial_metrics text) (fun metrics =>
     Ok (Parsed.make text tables metrics (decimal 9 1)))).

End Orchestrator.

(** ** What a pattern denotes

    [sem r w g g']: the word [w] is matched by [r], which takes the capture
    from [g] to [g'].  The matcher [run] is sound and complete for it
    (lemmas [run_sound], [run_complete]). *)

Inductive sem : regex -> pystr -> option pystr -> option pystr -> Prop :=
| sem_eps g : sem Eps [] g g
| sem_cls p c g : p c = true -> sem (Cls p) [c] g g
| sem_seq r1 r2 w1 w2 g g1 g2 :
    sem r1 w1 g g1 -> sem r2 w2 g1 g2 -> sem (Seq r1 r2) (w1 ++ w2) g g2
| sem_alt_l r1 r2 w g g' : sem r1 w g g' -> sem (Alt r1 r2) w g g'
| sem_alt_r r1 r2 w g g' : sem r2 w g g' -> sem (Alt r1 r2) w g g'
| sem_star p w g : forallb p w = true -> sem (Star p) w g g
| sem_grp r w g g' : sem r w g g' -> sem (Grp r) w g (Some w).

(** [w] is matched by [r], whatever it captures. *)
Definition matches (r : regex) (w : pystr) : Prop :=
  exists g', sem r w None g'.

(** [r] matches somewhere in [s]. *)
Definition occurs (r : regex) (s : pystr) : Prop :=
  exists a w b, s = a ++ w ++ b /\ matches r w.

(** The lexical cue of a registry pattern: the alternation of label words
    it starts with. *)
Definition label_of (pattern : regex) : regex :=
  match pattern with
  | Seq label _ => label
  | _ => pattern
  end.

(** A text without lexical cues: no label of the registry occurs in its
    lower-cased form. *)
Definition cue_free (text : pystr) : Prop :=
  forall metric_name pattern,
    In (metric_name, pattern) financial_patterns ->
    ~ occurs (label_of pattern) (lower text).

(** The number of digits in a text. *)
Definition count_digits (s : pystr) : nat :=
  length (filter is_digit s).

(** ** The specification's reading of the two heuristics

    These two definitions follow the words of the specification, not the
    code; they are compared with [_determine_unit] and [is_table_row]
    below. *)

(** [s.split()]: the maximal runs of characters that are not white space.
    [cur] is the token being read, reversed. *)
Fixpoint tokens_from (s : pystr) (cur : pystr) : list pystr :=
  let close := match cur with
               | [] => []
               | _ :: _ => [rev cur]
               end in
  match s with
  | [] => close
  | c :: s' =>
      if is_space c then close ++ tokens_from s' []
      else tokens_from s' (c :: cur)
  end.

Definition tokens (s : pystr) : list pystr := tokens_from s [].

Fixpoint str_eqb (a b : pystr) : bool :=
  match a, b with
  | [], [] => true
  | x :: a', y :: b' => chr_eqb x y && str_eqb a' b'
  | _, _ => false
  end.

(** A standalone token [t]: [t] is one of the white-space separated tokens
    of the context. *)
Definition has_token (t : string) (s : pystr) : bool :=
  existsb (str_eqb (str t)) (tokens s).

(** The resolution order as the specification words it: the magnitude
    letter counts when it stands alone. *)
Definition determine_unit_spec (context : pystr) : pystr :=
  let c := lower context in
  if contains (str "billion") c || has_token "b" c then str "billions"
  else if contains (str "million") c || has_token "m" c then str "millions"
  else if contains (str "thousand") c || has_token "k" c then str "thousands"
  else if contains (str "%") c || contains (str "percent") c
  then str "percentage"
  else if contains (str "ratio") c then str "ratio"
  else str "units".

(** A numeric token: digits, possibly with thousands separators and a
    decimal point. *)
Definition numeric_token (t : pystr) : bool :=
  existsb is_digit t &&
  forallb (fun c => is_digit c || chr_eqb c ","%char || chr_eqb c "."%char) t.

(** "The line contains at least three white-space separated numeric tokens
    appearing in sequence": three or more of its tokens, in the order they
    appear, are numeric. *)
Definition three_numeric_tokens (line : pystr) : bool :=
  3 <=? length (filter numeric_token (tokens line)).

(** ** The extractor as a list comprehension

    What [_extract_financial_metrics] amounts to when nothing escapes the
    [try]: each match contributes its metric, or nothing when its number
    does not parse. *)

Definition kept (metric_name : pystr) (m : rmatch) : list FinancialMetric.t :=
  match group1 m with
  | Some g =>
      match py_float (remove_commas g) with
      | Ok value =>
          [FinancialMetric.make metric_name value (_determine_unit (group0 m))
             (str "current") (str "document_extraction") (decimal 7 1)]
      | Raise _ => []
      end
  | None => []
  end.

Definition extracted_from (patterns : list (pystr * regex)) (text_lower : pystr)
  : list FinancialMetric.t :=
  flat_map (fun entry => flat_map (kept (fst entry))
                                  (finditer (snd entry) text_lower))
           patterns.

(** [r] contains the capturing group. *)
Fixpoint has_group (r : regex) : bool :=
  match r with
  | Eps | Cls _ | Star _ => false
  | Seq r1 r2 | Alt r1 r2 => has_group r1 || has_group r2
  | Grp _ => true
  end.

(** A character of a numeral: a digit or the decimal point. *)
Definition num_char (c : ascii) : bool := is_digit c || chr_eqb c "."%char.

(** [cue_free], decided with [re.search]. *)
Definition cue_freeb (text : pystr) : bool :=
  forallb (fun entry =>
             match re_search (label_of (snd entry)) (lower text) with
             | Some _ => false
             | None => true
             end)
          financial_patterns.

(** ** The service layer: [parse_document], [upload_and_parse]

    The file system and the readers are taken as given: [FS] is the state
    of the file system, a reader answers from a state and a path with what
    it read or with the exception it raised, and an operation that writes
    returns its outcome and the new state. *)

(** The pydantic model [ParseRequest]. *)
Module ParseRequest.
Record t : Type := make {
  document_id : pystr;
  file_path : pystr;
  file_type : pystr
}.
End ParseRequest.

(** The pydantic model [ParseResponse]; [error] defaults to [None]. *)
Module ParseResponse.
Record t : Type := make {
  document_id : pystr;
  extracted_text : pystr;
  tables : list table;
  metrics : list FinancialMetric.t;
  confidence : pyfloat;
  success : bool;
  error : option pystr
}.
End ParseResponse.

(** [d.get(key, default)], the dict given by its items. *)
Fixpoint dict_get (d : list (pystr * pystr)) (key default : pystr) : pystr :=
  match d with
  | [] => default
  | (k, v) :: d' => if str_eqb k key then v else dict_get d' key default
  end.

(** [file_type_map] of [upload_and_parse]. *)
Definition file_type_map : list (pystr * pystr) :=
  [ (str ".pdf", str "pdf");
    (str ".xlsx", str "excel");
    (str ".xls", str "excel");
    (str ".csv", str "csv") ].

Section Service.

Variable Page : Type.
Variable extract_text : Page -> pystr.

Variable DataFrame : Type.
Variable to_string : DataFrame -> pystr.
Variable to_dict_records : DataFrame -> list record.
Variable columns_tolist : DataFrame -> list pystr.

(** The file system. *)
Variable FS : Type.

(** [os.path.exists(path)] *)
Variable path_exists : FS -> pystr -> bool.

(** [open(path, 'rb')] and [PyPDF2.PdfReader(file).pages], with each
    page's [extract_text()] available. *)
Variable read_pdf : FS -> pystr -> result (list Page).

(** [pd.read_excel(path, sheet_name=None)], the sheets in order. *)
Variable read_excel : FS -> pystr -> result (list (pystr * DataFrame)).

(** [pd.read_csv(path)] *)
Variable read_csv : FS -> pystr -> result DataFrame.

(** [str(e)] *)
Variable exn_str : exn -> pystr.

(** An uploaded file and its [filename], a [str]. *)
Variable UploadFile : Type.
Variable filename : UploadFile -> pystr.

(** [with open(path, "wb") as buffer: buffer.write(await file.read())] *)
Variable save_upload : UploadFile -> pystr -> FS -> result unit * FS.

(** [os.unlink(path)] *)
Variable unlink : pystr -> FS -> result unit * FS.

(** [Path(name).suffix] *)
Variable path_suffix : pystr -> pystr.

(** [parse_pdf(file_path)]: reading is inside the [try].  The [Raise]
    branch is the handler under the reading stated at [or_http_500] (line
    117 does not compile as committed); the [Ok] branch is the source. *)
Definition parse_pdf_file (fs : FS) (file_path : pystr) : result Parsed.t :=
  match read_pdf fs file_path with
  | Ok pages => parse_pdf extract_text pages
  | Raise _ => Raise (HTTPException 500)
  end.

(** [parse_excel(file_path)]; the [Raise] branch is the handler of line
    154 under the same reading. *)
Definition parse_excel_file (fs : FS) (file_path : pystr) : result Parsed.t :=
  match read_excel fs file_path with
  | Ok excel_data =>
      parse_excel to_string to_dict_records columns_tolist excel_data
  | Raise _ => Raise (HTTPException 500)
  end.

(** [parse_csv(file_path)]; the [Raise] branch is the handler of line 183
    under the same reading. *)
Definition parse_csv_file (fs : FS) (file_path : pystr) : result Parsed.t :=
  match read_csv fs file_path with
  | Ok df => parse_csv to_string to_dict_records columns_tolist df
  | Raise _ => Raise (HTTPException 500)
  end.

(** The [try] block of [parse_document].  [ParseResponse(...)] is given a
    [str], two lists, a [float] and the fields of the request; its
    validation is taken to pass. *)
Definition parse_document_try (fs : FS) (request : ParseRequest.t)
  : result ParseResponse.t :=
  if negb (path_exists fs (ParseRequest.file_path request)) then
    Raise (HTTPException 404)
  else
    let file_type_lower := lower (ParseRequest.file_type request) in
    bind (if str_eqb file_type_lower (str "pdf") then
            parse_pdf_file fs (ParseRequest.file_path request)
          else if existsb (str_eqb file_type_lower)
                          [str "excel"; str "xlsx"; str "xls"] then
            parse_excel_file fs (ParseRequest.file_path request)
          else if str_eqb file_type_lower (str "csv") then
            parse_csv_file fs (ParseRequest.file_path request)
          else Raise (HTTPException 400))
         (fun result =>
            Ok (ParseResponse.make (ParseRequest.document_id request)
                  (Parsed.extracted_text result) (Parsed.tables result)
                  (Parsed.metrics result) (Parsed.confidence result)
                  true None)).

(** [parse_document]: an [HTTPException] is raised again, any other
    exception becomes a response with [success=False]. *)
Definition parse_document (fs : FS) (request : ParseRequest.t)
  : result ParseResponse.t :=
  match parse_document_try fs request with
  | Ok response => Ok response
  | Raise (HTTPException status_code) => Raise (HTTPException status_code)
  | Raise e =>
      Ok (ParseResponse.make (ParseRequest.document_id request) [] [] []
            (decimal 0 0) false (Some (exn_str e)))
  end.

(** [parse_document] (lines 265-306) with the three [parse_*] methods left
    open: [pdf], [excel] and [csv] stand for whatever [parser.parse_pdf],
    [parser.parse_excel] and [parser.parse_csv] return or raise. *)
Definition parse_document_with
           (pdf excel csv : FS -> pystr -> result Parsed.t)
           (fs : FS) (request : ParseRequest.t) : result ParseResponse.t :=
  let attempt :=
    if negb (path_exists fs (ParseRequest.file_path request)) then
      Raise (HTTPException 404)
    else
      let file_type_lower := lower (ParseRequest.file_type request) in
      bind (if str_eqb file_type_lower (str "pdf") then
              pdf fs (ParseRequest.file_path request)
            else if existsb (str_eqb file_type_lower)
                            [str "excel"; str "xlsx"; str "xls"] then
              excel fs (ParseRequest.file_path request)
            else if str_eqb file_type_lower (str "csv") then
              csv fs (ParseRequest.file_path request)
            else Raise (HTTPException 400))
           (fun result =>
              Ok (ParseResponse.make (ParseRequest.document_id request)
                    (Parsed.extracted_text result) (Parsed.tables result)
                    (Parsed.metrics result) (Parsed.confidence result)
                    true None)) in
  match attempt with
  | Ok response => Ok response
  | Raise (HTTPException status_code) => Raise (HTTPException status_code)
  | Raise e =>
      Ok (ParseResponse.make (ParseRequest.document_id request) [] [] []
            (decimal 0 0) false (Some (exn_str e)))
  end.

(** [f"/tmp/{file.filename}"] *)
Definition temp_path_of (file : UploadFile) : pystr :=
  str "/tmp/" ++ filename file.

(** The [try] block of [upload_and_parse]. *)
Definition upload_try (file : UploadFile) (fs : FS)
  : result ParseResponse.t * FS :=
  let temp_path := temp_path_of file in
  match save_upload file temp_path fs with
  | (Raise e, fs1) => (Raise e, fs1)
  | (Ok _, fs1) =>
      let file_extension := lower (path_suffix (filename file)) in
      let file_type := dict_get file_type_map file_extension (str "unknown") in
      if str_eqb file_type (str "unknown") then
        (Raise (HTTPException 400), fs1)
      else
        let request :=
          ParseRequest.make (str "upload_" ++ filename file) temp_path
                            file_type in
        match parse_document fs1 request with
        | Raise e => (Raise e, fs1)
        | Ok result =>
            match unlink temp_path fs1 with
            | (Raise e, fs2) => (Raise e, fs2)
            | (Ok _, fs2) => (Ok result, fs2)
            end
        end
  end.

(** [upload_and_parse]: whatever the [try] block raises, the handler
    removes the temporary file if it is there and raises [HTTPException]
    500. *)
Definition upload_and_parse (file : UploadFile) (fs : FS)
  : result ParseResponse.t * FS :=
  match upload_try file fs with
  | (Ok response, fs') => (Ok response, fs')
  | (Raise _, fs') =>
      if path_exists fs' (temp_path_of file) then
        match unlink (temp_path_of file) fs' with
        | (Raise e, fs'') => (Raise e, fs'')
        | (Ok _, fs'') => (Raise (HTTPException 500), fs'')
        end
      else (Raise (HTTPException 500), fs')
  end.

End Service.

(** The run still open when the loop of the table detector ends: the last
    value of [current_table]. *)
Definition open_run_of (text : pystr) : list pystr :=
  snd (fold_left table_step (split_lines text) ([], [])).

(** What closing a run adds to [tables]. *)
Definition closing (current_table : list pystr) : list table :=
  if 2 <? length current_table
  then [extracted_table current_table (decimal 6 1)]
  else [].

(** The file types [parse_document] dispatches on, compared with the
    lower-cased [file_type]. *)
Definition supported_type (file_type_lower : pystr) : bool :=
  existsb (str_eqb file_type_lower)
          [str "pdf"; str "excel"; str "xlsx"; str "xls"; str "csv"].

(** ** A small instance for examples

    A file system is a list of (path, text) pairs; a PDF has one page, its
    text; a workbook has one sheet [Sheet1]; a data frame renders as its
    text; an upload is a (filename, text) pair; saving and unlinking always
    succeed; the suffix of a name starts at its last point. *)
Module Toy.

Definition FS : Type := list (pystr * pystr).

Definition path_exists (fs : FS) (path : pystr) : bool :=
  existsb (fun entry => str_eqb (fst entry) path) fs.

Definition read (fs : FS) (path : pystr) : result pystr :=
  match find (fun entry => str_eqb (fst entry) path) fs with
  | Some entry => Ok (snd entry)
  | None => Raise ValueError
  end.

Definition extract_text (page : pystr) : pystr := page.

Definition to_string (df : pystr) : pystr := df.

Definition to_dict_records (df : pystr) : list record := [].

Definition columns_tolist (df : pystr) : list pystr := [].

Definition read_pdf (fs : FS) (path : pystr) : result (list pystr) :=
  bind (read fs path) (fun text => Ok [text]).

Definition read_excel (fs : FS) (path : pystr)
  : result (list (pystr * pystr)) :=
  bind (read fs path) (fun text => Ok [(str "Sheet1", text)]).

Definition read_csv (fs : FS) (path : pystr) : result pystr := read fs path.

(** A storage whose reader always raises. *)
Definition read_broken (A : Type) (fs : FS) (path : pystr) : result A :=
  Raise ValueError.

Definition exn_str (e : exn) : pystr := str "error".

Definition filename (file : pystr * pystr) : pystr := fst file.

Definition save_upload (file : pystr * pystr) (path : pystr) (fs : FS)
  : result unit * FS :=
  (Ok tt, (path, snd file) :: fs).

Definition unlink (path : pystr) (fs : FS) : result unit * FS :=
  (Ok tt, filter (fun entry => negb (str_eqb (fst entry) path)) fs).

Fixpoint path_suffix (name : pystr) : pystr :=
  match name with
  | [] => []
  | c :: name' =>
      match path_suffix name' with
      | [] => if chr_eqb c "."%char then name else []
      | suffix => suffix
      end
  end.

(** [parse_document] and [upload_and_parse] on this instance. *)
Definition parse_document : FS -> ParseRequest.t -> result ParseResponse.t :=
  parse_document extract_text to_string to_dict_records columns_tolist
                 path_exists read_pdf read_excel read_csv exn_str.

Definition upload_and_parse
  : pystr * pystr -> FS -> result ParseResponse.t * FS :=
  upload_and_parse extract_text to_string to_dict_records columns_tolist
                   path_exists read_pdf read_excel read_csv exn_str
                   filename save_upload unlink path_suffix.

End Toy.

(** Appends and conses to right-nested form. *)
Ltac list_norm := repeat (progress (cbn [app]; rewrite <- ?app_assoc)).

(** * Properties *)

(** ** Characters and strings *)

Lemma chr_eqb_eq (a b : ascii) : chr_eqb a b = true <-> a = b.
Proof. apply Ascii.eqb_eq. Qed.

Lemma chr_eqb_refl (a : ascii) : chr_eqb a a = true.
Proof. apply chr_eqb_eq; reflexivity. Qed.

Lemma lower_char_idem (c : ascii) : lower_char (lower_char c) = lower_char c.
Proof.
  destruct c as [[] [] [] [] [] [] [] []]; vm_compute; reflexivity.
Qed.

Lemma lower_idem (s : pystr) : lower (lower s) = lower s.
Proof.
  unfold lower. rewrite map_map.
  apply map_ext. intro c. apply lower_char_idem.
Qed.

Lemma lower_app (a b : pystr) : lower (a ++ b) = lower a ++ lower b.
Proof. apply map_app. Qed.

Lemma starts_with_spec (p s : pystr) :
  starts_with p s = true <-> exists b, s = p ++ b.
Proof.
  revert s. induction p as [|a p IH]; intros s; simpl.
  - split; [intros _; exists s; reflexivity | reflexivity].
  - destruct s as [|c s].
    + split; [discriminate | intros [b Hb]; discriminate].
    + rewrite andb_true_iff, chr_eqb_eq, IH. split.
      * intros [-> [b ->]]. exists b. reflexivity.
      * intros [b Hb]. injection Hb as -> ->. split; [reflexivity | now exists b].
Qed.

(** [contains] is the substring test. *)
Lemma contains_spec (p s : pystr) :
  contains p s = true <-> exists a b, s = a ++ p ++ b.
Proof.
  induction s as [|c s IH].
  - simpl. rewrite orb_false_r, starts_with_spec. split.
    + intros [b Hb]. exists [], b. exact Hb.
    + intros [a [b Hab]]. destruct a; [now exists b | discriminate].
  - cbn [contains]. rewrite orb_true_iff, starts_with_spec, IH. split.
    + intros [[b Hb] | [a [b Hab]]].
      * exists [], b. exact Hb.
      * exists (c :: a), b. simpl. now rewrite Hab.
    + intros [a [b Hab]]. destruct a as [|x a].
      * left. now exists b.
      * right. simpl in Hab. injection Hab as _ Hab. now exists a, b.
Qed.

Lemma contains_false (p s : pystr) :
  contains p s = false <-> ~ exists a b, s = a ++ p ++ b.
Proof.
  rewrite <- contains_spec. destruct (contains p s); split; intro H;
    try reflexivity; try discriminate; try (intro; discriminate).
  exfalso. now apply H.
Qed.

(** ** The model on small inputs *)

Example split_lines_trailing :
  split_lines (str "a" ++ [NL] ++ str "b" ++ [NL]) = [str "a"; str "b"; []].
Proof. reflexivity. Qed.

Example strip_both_sides :
  strip (str "  Revenue 100 200 " ++ [NL]) = str "Revenue 100 200".
Proof. reflexivity. Qed.

Example lower_mixed_case : lower (str "P/E Ratio") = str "p/e ratio".
Proof. reflexivity. Qed.

(** The leftmost match wins, and at one position the first alternative
    that leads to a match: ["net sales"] at 0, not ["sales"] at 4. *)
Example search_leftmost :
  re_search (metric_pattern
               (alts [word "revenue"; word "sales"; word "net sales";
                      word "total revenue"]) sep_cur magnitude)
            (str "net sales: 12 k")
  = Some {| group0 := str "net sales: 12 k"; group1 := Some (str "12");
            after := [] |}.
Proof. vm_compute. reflexivity. Qed.

(** [finditer] reports the matches left to right and resumes after each. *)
Example finditer_two_matches :
  map group1
      (finditer (metric_pattern (alts [word "earnings per share"; word "eps"])
                                sep_cur Eps)
                (str "eps 1,5 and eps: $2.50"))
  = [Some (str "1,5"); Some (str "2.50")].
Proof. vm_compute. reflexivity. Qed.

Example py_float_point_five : py_float (str ".5") = Ok (decimal 5 1).
Proof. vm_compute. reflexivity. Qed.

Example py_float_empty : py_float [] = Raise ValueError.
Proof. reflexivity. Qed.

Example py_float_two_points : py_float (str "1.2.3") = Raise ValueError.
Proof. vm_compute. reflexivity. Qed.

Example py_float_negative : py_float (str " -2.5 ") = Ok (decimal (-25) 1).
Proof. vm_compute. reflexivity. Qed.

(** The magnitude word goes before the percent sign. *)
Example determine_unit_million_percent :
  _determine_unit (str "growth 5 million, 3%") = str "millions".
Proof. vm_compute. reflexivity. Qed.

(** A magnitude letter glued to the number is not seen. *)
Example determine_unit_glued_letter :
  _determine_unit (str "revenue: 5b") = str "units".
Proof. vm_compute. reflexivity. Qed.

(** ** The matcher against the denotation *)

Lemma firstn_consumed (w s' : pystr) :
  firstn (length (w ++ s') - length s') (w ++ s') = w.
Proof.
  rewrite length_app.
  replace (length w + length s' - length s') with (length w) by lia.
  rewrite firstn_app, Nat.sub_diag, firstn_all. simpl. apply app_nil_r.
Qed.

Lemma run_star_sound (A : Type) (p : ascii -> bool) (s : pystr)
      (k : pystr -> option A) (x : A) :
  run_star p s k = Some x ->
  exists w s', s = w ++ s' /\ forallb p w = true /\ k s' = Some x.
Proof.
  induction s as [|c s IH]; simpl; intro H.
  - exists [], []. auto.
  - destruct (p c) eqn:Hp.
    + destruct (run_star p s k) as [y|] eqn:Hr.
      * injection H as ->. destruct (IH eq_refl) as [w [s' [-> [Hw Hk]]]].
        exists (c :: w), s'. simpl. rewrite Hp. auto.
      * exists [], (c :: s). auto.
    + exists [], (c :: s). auto.
Qed.

Lemma run_star_base (A : Type) (p : ascii -> bool) (s : pystr)
      (k : pystr -> option A) :
  k s <> None -> run_star p s k <> None.
Proof.
  destruct s as [|c s]; simpl; auto.
  destruct (p c); auto.
  destruct (run_star p s k); auto. discriminate.
Qed.

Lemma run_star_complete (A : Type) (p : ascii -> bool) (w s' : pystr)
      (k : pystr -> option A) :
  forallb p w = true -> k s' <> None -> run_star p (w ++ s') k <> None.
Proof.
  induction w as [|c w IH]; simpl; intros Hw Hk.
  - now apply run_star_base.
  - apply andb_true_iff in Hw as [Hc Hw]. rewrite Hc.
    specialize (IH Hw Hk).
    destruct (run_star p (w ++ s') k); [discriminate | contradiction].
Qed.

(** Soundness: a success of the matcher is a match in the sense of [sem],
    and the continuation succeeded on what is left. *)
Lemma run_sound (A : Type) (r : regex) :
  forall (s : pystr) (g : option pystr)
         (k : pystr -> option pystr -> option A) (x : A),
    run r s g k = Some x ->
    exists w s' g', s = w ++ s' /\ sem r w g g' /\ k s' g' = Some x.
Proof.
  induction r as [|p|r1 IH1 r2 IH2|r1 IH1 r2 IH2|p|r IH];
    intros s g k x H; simpl in H.
  - exists [], s, g. split; [reflexivity | split; [constructor | exact H]].
  - destruct s as [|c s]; [discriminate|].
    destruct (p c) eqn:Hp; [|discriminate].
    exists [c], s, g. split; [reflexivity | split; [now constructor | exact H]].
  - apply IH1 in H as [w1 [s1 [g1 [-> [H1 H]]]]].
    apply IH2 in H as [w2 [s2 [g2 [-> [H2 H]]]]].
    exists (w1 ++ w2), s2, g2. rewrite app_assoc.
    split; [reflexivity | split; [now apply sem_seq with g1 | exact H]].
  - destruct (run r1 s g k) as [y|] eqn:Hr.
    + injection H as ->. apply IH1 in Hr as [w [s' [g' [-> [H1 H]]]]].
      exists w, s', g'. split; [reflexivity | split; [now apply sem_alt_l | exact H]].
    + apply IH2 in H as [w [s' [g' [-> [H2 H]]]]].
      exists w, s', g'. split; [reflexivity | split; [now apply sem_alt_r | exact H]].
  - apply run_star_sound in H as [w [s' [-> [Hw H]]]].
    exists w, s', g. split; [reflexivity | split; [now constructor | exact H]].
  - apply IH in H as [w [s' [g' [-> [H1 H]]]]].
    rewrite firstn_consumed in H.
    exists w, s', (Some w). split; [reflexivity | split; [now apply sem_grp with g' | exact H]].
Qed.

(** Completeness: where a match exists on which the continuation succeeds,
    the matcher succeeds (possibly with a match of higher priority). *)
Lemma run_complete (A : Type) (r : regex) (w : pystr) (g g' : option pystr) :
  sem r w g g' ->
  forall (s' : pystr) (k : pystr -> option pystr -> option A),
    k s' g' <> None -> run r (w ++ s') g k <> None.
Proof.
  induction 1 as [g|p c g Hp|r1 r2 w1 w2 g g1 g2 _ IH1 _ IH2
                 |r1 r2 w g g' _ IH|r1 r2 w g g' _ IH|p w g Hw|r w g g' _ IH];
    intros s' k Hk; simpl.
  - exact Hk.
  - rewrite Hp. exact Hk.
  - rewrite <- app_assoc. apply IH1. apply IH2. exact Hk.
  - specialize (IH s' k Hk). destruct (run r1 (w ++ s') g k); [discriminate | contradiction].
  - destruct (run r1 (w ++ s') g k); [discriminate | now apply IH].
  - now apply run_star_complete.
  - apply IH. rewrite firstn_consumed. exact Hk.
Qed.

Lemma match_at_sound (r : regex) (s : pystr) (adv : bool) (m : rmatch) :
  match_at r s adv = Some m ->
  s = group0 m ++ after m /\ sem r (group0 m) None (group1 m)
  /\ (adv = true -> group0 m <> []).
Proof.
  unfold match_at. intro H.
  apply run_sound in H as [w [s' [g' [-> [Hsem H]]]]].
  rewrite firstn_consumed in H.
  destruct (adv && (length s' =? length (w ++ s'))) eqn:Hadv; [discriminate|].
  injection H as <-. simpl. split; [reflexivity | split; [exact Hsem|]].
  intros -> ->. simpl in Hadv. now rewrite Nat.eqb_refl in Hadv.
Qed.

Lemma match_at_complete (r : regex) (w s' : pystr) (g' : option pystr) :
  sem r w None g' -> match_at r (w ++ s') false <> None.
Proof.
  intro H. unfold match_at. apply (run_complete H). simpl. discriminate.
Qed.

(** [re.search] finds a match exactly when the pattern occurs. *)
Lemma re_search_spec (r : regex) (s : pystr) :
  re_search r s <> None <-> occurs r s.
Proof.
  induction s as [|c s IH]; simpl.
  - destruct (match_at r [] false) as [m|] eqn:Hm.
    + split; [intros _|discriminate].
      apply match_at_sound in Hm as [Hs [Hsem _]].
      exists [], (group0 m), (after m). split; [exact Hs | now exists (group1 m)].
    + split; [intro H; now contradiction H|].
      intros [a [w [b [Hs [g' Hsem]]]]].
      destruct a; [|discriminate]. destruct w; [|discriminate]. destruct b; [|discriminate].
      apply (match_at_complete []) in Hsem. simpl in Hsem. contradiction.
  - destruct (match_at r (c :: s) false) as [m|] eqn:Hm.
    + split; [intros _|discriminate].
      apply match_at_sound in Hm as [Hs [Hsem _]].
      exists [], (group0 m), (after m). split; [exact Hs | now exists (group1 m)].
    + rewrite IH. split.
      * intros [a [w [b [-> Hw]]]]. exists (c :: a), w, b. split; [reflexivity | exact Hw].
      * intros [a [w [b [Hs [g' Hsem]]]]]. destruct a as [|x a].
        -- simpl in Hs. apply (match_at_complete b) in Hsem.
           rewrite <- Hs in Hsem. contradiction.
        -- injection Hs as _ ->. exists a, w, b. split; [reflexivity | now exists g'].
Qed.

(** Every match [finditer] reports is a match of the pattern, at a place in
    the text. *)
Lemma scan_sound (r : regex) :
  forall (s : pystr) (skip : nat) (m : rmatch),
    In m (scan r s skip) ->
    exists a, s = a ++ group0 m ++ after m /\ sem r (group0 m) None (group1 m).
Proof.
  assert (Hat : forall s adv m0 m,
             match_at r s adv = Some m0 -> m0 = m ->
             exists a, s = a ++ group0 m ++ after m
                       /\ sem r (group0 m) None (group1 m)).
  { intros s adv m0 m H <-. apply match_at_sound in H as [Hs [Hsem _]].
    exists []. auto. }
  induction s as [|c s IH]; intros skip m Hin.
  - destruct skip as [|n]; simpl in Hin; [|contradiction].
    destruct (match_at r [] false) as [m0|] eqn:H0; [|contradiction].
    destruct (group0 m0) eqn:Hg0.
    + destruct Hin as [Hin|Hin]; [now apply (Hat _ _ _ _ H0)|].
      destruct (match_at r [] true) as [m2|] eqn:H2; [|contradiction].
      destruct Hin as [Hin|[]]. now apply (Hat _ _ _ _ H2).
    + destruct Hin as [Hin|[]]. now apply (Hat _ _ _ _ H0).
  - assert (Hadv : forall n, In m (scan r s n) ->
               exists a, c :: s = a ++ group0 m ++ after m
                         /\ sem r (group0 m) None (group1 m)).
    { intros n Hn. apply IH in Hn as [a [-> Hsem]]. exists (c :: a). auto. }
    destruct skip as [|n]; simpl in Hin; [|now apply (Hadv n)].
    destruct (match_at r (c :: s) false) as [m0|] eqn:H0; [|now apply (Hadv 0)].
    destruct (group0 m0) eqn:Hg0.
    + destruct Hin as [Hin|Hin]; [now apply (Hat _ _ _ _ H0)|].
      destruct (match_at r (c :: s) true) as [m2|] eqn:H2; [|now apply (Hadv 0)].
      destruct Hin as [Hin|Hin]; [now apply (Hat _ _ _ _ H2)|].
      now apply (Hadv _ Hin).
    + destruct Hin as [Hin|Hin]; [now apply (Hat _ _ _ _ H0)|].
      now apply (Hadv _ Hin).
Qed.

Lemma finditer_sound (r : regex) (s : pystr) (m : rmatch) :
  In m (finditer r s) ->
  exists a, s = a ++ group0 m ++ after m /\ sem r (group0 m) None (group1 m).
Proof. apply scan_sound. Qed.

(** A pattern without the group leaves the capture alone. *)
Lemma sem_no_group (r : regex) (w : pystr) (g g' : option pystr) :
  sem r w g g' -> has_group r = false -> g' = g.
Proof.
  induction 1; simpl; intro Hg; try reflexivity;
    try (apply orb_false_iff in Hg as [Hg1 Hg2]); auto.
  - rewrite IHsem2, IHsem1; auto.
  - discriminate.
Qed.

(** Inversion of [sem] on each constructor. *)
Lemma sem_seq_inv (r1 r2 : regex) (w : pystr) (g g2 : option pystr) :
  sem (Seq r1 r2) w g g2 ->
  exists w1 w2 g1, w = w1 ++ w2 /\ sem r1 w1 g g1 /\ sem r2 w2 g1 g2.
Proof. inversion 1; subst. eauto 10. Qed.

Lemma sem_star_inv (p : ascii -> bool) (w : pystr) (g g' : option pystr) :
  sem (Star p) w g g' -> g' = g /\ forallb p w = true.
Proof. inversion 1; subst. auto. Qed.

Lemma sem_cls_inv (p : ascii -> bool) (w : pystr) (g g' : option pystr) :
  sem (Cls p) w g g' -> g' = g /\ exists c, w = [c] /\ p c = true.
Proof. inversion 1; subst. eauto. Qed.

Lemma sem_plus_inv (p : ascii -> bool) (w : pystr) (g g' : option pystr) :
  sem (Plus p) w g g' ->
  g' = g /\ exists c w', w = c :: w' /\ p c = true /\ forallb p w' = true.
Proof.
  unfold Plus. intro H.
  apply sem_seq_inv in H as [w1 [w2 [g1 [-> [H1 H2]]]]].
  apply sem_cls_inv in H1 as [-> [c [-> Hc]]].
  apply sem_star_inv in H2 as [-> Hw].
  split; [reflexivity|]. exists c, w2. auto.
Qed.

Lemma sem_opt_inv (r : regex) (w : pystr) (g g' : option pystr) :
  sem (Opt r) w g g' -> sem r w g g' \/ (w = [] /\ g' = g).
Proof.
  unfold Opt. inversion 1; subst; [now left|].
  match goal with H : sem Eps _ _ _ |- _ => inversion H; subst end. now right.
Qed.

Lemma sem_grp_inv (r : regex) (w : pystr) (g g' : option pystr) :
  sem (Grp r) w g g' -> g' = Some w /\ exists g1, sem r w g g1.
Proof. inversion 1; subst. eauto. Qed.

Lemma sem_plus_intro (p : ascii -> bool) (c : ascii) (w : pystr)
      (g : option pystr) :
  p c = true -> forallb p w = true -> sem (Plus p) (c :: w) g g.
Proof.
  intros Hc Hw. unfold Plus. change (c :: w) with ([c] ++ w).
  apply sem_seq with g; now constructor.
Qed.

(** ** Floats *)

Lemma strip_id (s : pystr) :
  forallb (fun c => negb (is_space c)) s = true -> strip s = s.
Proof.
  assert (L : forall t, forallb (fun c => negb (is_space c)) t = true ->
                        lstrip t = t).
  { intros [|c t]; simpl; [reflexivity|].
    intro H. apply andb_true_iff in H as [Hc _].
    apply negb_true_iff in Hc. now rewrite Hc. }
  intro H. unfold strip, rstrip. rewrite (L s H), L.
  - apply rev_involutive.
  - rewrite forallb_forall in *. intros c Hc. apply H. now apply in_rev.
Qed.

Lemma py_float_raises (s : pystr) (e : exn) :
  py_float s = Raise e -> e = ValueError.
Proof.
  unfold py_float.
  destruct (match strip s with [] => _ | c :: t' => _ end) as [negative u].
  destruct (parse_decimal u) as [[m k]|]; [discriminate|].
  now intros [= <-].
Qed.

Lemma digits_value_nonneg (ds : pystr) (acc : Z) :
  (0 <= acc)%Z -> (0 <= digits_value ds acc)%Z.
Proof.
  revert acc. induction ds as [|d ds IH]; cbn [digits_value]; intros acc Hacc;
    [exact Hacc|].
  apply IH. unfold digit_value. lia.
Qed.

Lemma parse_decimal_nonneg (s : pystr) (m : Z) (e : nat) :
  parse_decimal s = Some (m, e) -> (0 <= m)%Z.
Proof.
  unfold parse_decimal. destruct (span_digits s) as [ip rest].
  destruct rest as [|c fp].
  - destruct (is_empty ip); [discriminate|].
    intros [= <- _]. apply digits_value_nonneg. lia.
  - destruct (_ && _); [|discriminate].
    intros [= <- _]. apply digits_value_nonneg. lia.
Qed.

Lemma decimal_nonneg (m : Z) (e : nat) :
  (0 <= m)%Z -> non_negative (decimal m e) = true.
Proof.
  intro Hm. unfold decimal, non_negative.
  apply Qle_bool_iff. rewrite Qred_correct.
  unfold Qle. simpl. lia.
Qed.

Lemma round_decimal_nonneg (m : Z) (e : nat) :
  (0 <= m)%Z -> non_negative (round_decimal false m e) = true.
Proof.
  intro Hm. unfold round_decimal.
  destruct (_ <=? _)%Z; [reflexivity | now apply decimal_nonneg].
Qed.

Lemma round_decimal_finite (negative : bool) (m : Z) (e : nat) :
  is_finite (round_decimal negative m e) = true
  <-> (m < float_overflow * 10 ^ Z.of_nat e)%Z.
Proof.
  unfold round_decimal, decimal.
  destruct (Z.leb_spec (float_overflow * 10 ^ Z.of_nat e) m);
    cbn [is_finite]; split; intro; try lia; try discriminate; reflexivity.
Qed.

(** On a text of digits and points, [float] depends on [parse_decimal]
    alone and the sign is plus. *)
Lemma py_float_unsigned (s : pystr) :
  forallb num_char s = true ->
  py_float s = match parse_decimal s with
               | Some (m, e) => Ok (round_decimal false m e)
               | None => Raise ValueError
               end.
Proof.
  intro H. unfold py_float. rewrite strip_id.
  - destruct s as [|c t]; [reflexivity|].
    simpl in H. apply andb_true_iff in H as [Hc _].
    assert (chr_eqb c "-"%char = false /\ chr_eqb c "+"%char = false) as [-> ->].
    { revert Hc. destruct c as [[] [] [] [] [] [] [] []]; vm_compute;
        intro; split; (reflexivity || discriminate). }
    reflexivity.
  - rewrite forallb_forall in *. intros c Hc. specialize (H c Hc).
    revert H. destruct c as [[] [] [] [] [] [] [] []]; vm_compute;
      intro; (reflexivity || discriminate).
Qed.

(** ** The registry patterns *)

Lemma chr_point (x : ascii) : chr true "."%char x = true -> x = "."%char.
Proof.
  destruct x as [[] [] [] [] [] [] [] []]; vm_compute;
    intro; (reflexivity || discriminate).
Qed.

(** What [[0-9,]+\.?[0-9]*] matches. *)
Lemma number_sem (n : pystr) (g g' : option pystr) :
  sem number n g g' ->
  g' = g /\
  exists c a b d,
    n = c :: a ++ b ++ d /\ digit_comma c = true
    /\ forallb digit_comma a = true
    /\ (b = [] \/ b = ["."%char]) /\ forallb is_digit d = true.
Proof.
  unfold number. intro H.
  apply sem_seq_inv in H as [w1 [w2 [g1 [-> [H1 H]]]]].
  apply sem_seq_inv in H as [b [d [g2 [-> [H2 H3]]]]].
  apply sem_plus_inv in H1 as [-> [c [a [-> [Hc Ha]]]]].
  apply sem_star_inv in H3 as [-> Hd].
  apply sem_opt_inv in H2 as [H2 | [-> ->]].
  - apply sem_cls_inv in H2 as [-> [x [-> Hx]]]. apply chr_point in Hx as ->.
    split; [reflexivity|]. exists c, a, ["."%char], d. auto 6.
  - split; [reflexivity|]. exists c, a, [], d. auto 6.
Qed.

(** The captured text, commas removed, is made of digits and points: the
    only part of Python's float grammar [py_float] has to answer for. *)
Lemma number_alphabet (n : pystr) (g g' : option pystr) :
  sem number n g g' -> forallb num_char (remove_commas n) = true.
Proof.
  intro H. apply number_sem in H as [_ [c [a [b [d [-> [Hc [Ha [Hb Hd]]]]]]]]].
  apply forallb_forall. intros x Hx.
  unfold remove_commas in Hx. apply filter_In in Hx as [Hx Hcomma].
  apply negb_true_iff in Hcomma.
  assert (Hdc : forall y, digit_comma y = true -> chr_eqb y ","%char = false ->
                          num_char y = true).
  { intros y Hy Hn. unfold digit_comma in Hy. unfold num_char.
    rewrite Hn, orb_false_r in Hy. now rewrite Hy. }
  rewrite forallb_forall in Ha, Hd.
  destruct Hx as [<- | Hx]; [now apply Hdc|].
  apply in_app_or in Hx as [Hx | Hx]; [apply Hdc; auto|].
  apply in_app_or in Hx as [Hx | Hx].
  - destruct Hb as [-> | ->]; [contradiction|].
    destruct Hx as [<- | []]. reflexivity.
  - unfold num_char. now rewrite (Hd x Hx).
Qed.

(** Every registry pattern is [label sep* ( number ) tail] with the group
    nowhere else. *)
Lemma registry_shape (metric_name : pystr) (pattern : regex) :
  In (metric_name, pattern) financial_patterns ->
  exists label sp tail,
    pattern = metric_pattern label sp tail
    /\ has_group label = false /\ has_group tail = false.
Proof.
  unfold financial_patterns. cbn [In]. intro H.
  repeat (destruct H as [H | H];
          [injection H as <- <-; do 3 eexists;
           split; [reflexivity | split; vm_compute; reflexivity] | ]).
  contradiction.
Qed.

(** A match of a registry pattern: a label, separators, the captured
    number, a tail; group 1 is set, to the number. *)
Lemma metric_pattern_sem (label : regex) (sp : ascii -> bool) (tail : regex)
      (w : pystr) (g' : option pystr) :
  has_group label = false -> has_group tail = false ->
  sem (metric_pattern label sp tail) w None g' ->
  exists l x n t,
    w = l ++ x ++ n ++ t /\ sem label l None None
    /\ sem number n None None /\ g' = Some n.
Proof.
  intros Hl Ht H. unfold metric_pattern in H.
  apply sem_seq_inv in H as [l [w1 [g1 [-> [H1 H]]]]].
  apply sem_seq_inv in H as [x [w2 [g2 [-> [H2 H]]]]].
  apply sem_seq_inv in H as [n [t [g3 [-> [H3 H4]]]]].
  pose proof (sem_no_group H1 Hl) as ->.
  apply sem_star_inv in H2 as [-> _].
  apply sem_grp_inv in H3 as [-> [g4 H3]].
  pose proof (sem_no_group H4 Ht) as ->.
  destruct (number_sem H3) as [-> _].
  exists l, x, n, t. auto.
Qed.

(** Group 1 takes part in every match [finditer] reports for a registry
    pattern, and holds a number. *)
Lemma registry_match (metric_name : pystr) (pattern : regex) (s : pystr)
      (m : rmatch) :
  In (metric_name, pattern) financial_patterns ->
  In m (finditer pattern s) ->
  exists n, group1 m = Some n /\ sem number n None None
            /\ occurs (label_of pattern) s.
Proof.
  intros Hreg Hm.
  destruct (registry_shape Hreg) as [label [sp [tail [-> [Hl Ht]]]]].
  apply finditer_sound in Hm as [a [Hs Hsem]].
  apply (metric_pattern_sem Hl Ht) in Hsem as [l [x [n [t [Hw [Hlab [Hn Hg]]]]]]].
  exists n. split; [exact Hg | split; [exact Hn|]].
  cbn [label_of metric_pattern].
  exists a, l, (x ++ n ++ t ++ after m). split; [|now exists None].
  rewrite Hs, Hw. now rewrite <- !app_assoc.
Qed.

(** ** The extractor *)

Lemma metric_of_match_kept (metric_name : pystr) (m : rmatch) :
  group1 m <> None ->
  match metric_of_match metric_name m with
  | Ok metric => kept metric_name m = [metric]
  | Raise e => e = ValueError /\ kept metric_name m = []
  end.
Proof.
  unfold metric_of_match, kept, group1_replace.
  destruct (group1 m) as [g|]; [intros _ | intro H; now contradiction H].
  cbn [bind].
  destruct (py_float (remove_commas g)) as [v|e] eqn:Hf; cbn [bind].
  - reflexivity.
  - split; [now apply py_float_raises in Hf | reflexivity].
Qed.

Lemma for_matches_eq (metric_name : pystr) (matches : list rmatch) :
  (forall m, In m matches -> group1 m <> None) ->
  forall metrics,
    for_matches metric_name matches metrics
    = Ok (metrics ++ flat_map (kept metric_name) matches).
Proof.
  induction matches as [|m ms IH]; intros Hall metrics; cbn [for_matches flat_map].
  - now rewrite app_nil_r.
  - pose proof (@metric_of_match_kept metric_name m (Hall m (or_introl eq_refl))) as Hk.
    assert (Hms : forall m', In m' ms -> group1 m' <> None)
      by (intros m' Hm'; apply Hall; now right).
    destruct (metric_of_match metric_name m) as [metric|e].
    + rewrite Hk, (IH Hms). now rewrite <- app_assoc.
    + destruct Hk as [-> ->]. now rewrite (IH Hms).
Qed.

Lemma for_patterns_eq (patterns : list (pystr * regex)) (text_lower : pystr) :
  (forall metric_name pattern, In (metric_name, pattern) patterns ->
     forall m, In m (finditer pattern text_lower) -> group1 m <> None) ->
  forall metrics,
    for_patterns patterns text_lower metrics
    = Ok (metrics ++ extracted_from patterns text_lower).
Proof.
  unfold extracted_from.
  induction patterns as [|[metric_name pattern] ps IH]; intros Hall metrics;
    cbn [for_patterns flat_map fst snd].
  - now rewrite app_nil_r.
  - rewrite for_matches_eq by (apply (Hall metric_name pattern); now left).
    cbn [bind]. rewrite IH.
    + now rewrite <- app_assoc.
    + intros n p Hin. apply (Hall n p). now right.
Qed.

(** The extractor never leaves its loop by an exception, and its result is
    the list comprehension [extracted_from]. *)
Lemma extract_eq (text : pystr) :
  _extract_financial_metrics text
  = Ok (extracted_from financial_patterns (lower text)).
Proof.
  unfold _extract_financial_metrics. rewrite for_patterns_eq; [reflexivity|].
  intros metric_name pattern Hreg m Hm.
  destruct (@registry_match _ _ _ _ Hreg Hm) as [n [-> _]]. discriminate.
Qed.

Lemma cue_freeb_spec (text : pystr) : cue_freeb text = true -> cue_free text.
Proof.
  unfold cue_freeb, cue_free. rewrite forallb_forall.
  intros H metric_name pattern Hreg Hocc.
  specialize (H _ Hreg). cbn [snd] in H.
  apply re_search_spec in Hocc.
  destruct (re_search (label_of pattern) (lower text));
    [discriminate | now contradiction Hocc].
Qed.

Lemma flat_map_nil (A B : Type) (f : A -> list B) (l : list A) :
  (forall x, In x l -> f x = []) -> flat_map f l = [].
Proof.
  induction l as [|x l IH]; intro H; simpl; [reflexivity|].
  rewrite (H x (or_introl eq_refl)), IH; [reflexivity|].
  intros y Hy. apply H. now right.
Qed.

Lemma cue_free_no_match (text : pystr) :
  cue_free text -> extracted_from financial_patterns (lower text) = [].
Proof.
  intro Hfree. unfold extracted_from. apply flat_map_nil.
  intros [metric_name pattern] Hreg. cbn [fst snd].
  destruct (finditer pattern (lower text)) as [|m ms] eqn:Hf; [reflexivity|].
  assert (Hm : In m (finditer pattern (lower text))) by (rewrite Hf; now left).
  destruct (@registry_match _ _ _ _ Hreg Hm) as [n [_ [_ Hocc]]].
  now apply (Hfree metric_name pattern Hreg) in Hocc.
Qed.

(** A match whose number does not parse is dropped while the label is
    there: in ["eps: ,"] the group captures [","], which is [""] once the
    comma is removed. *)
Example extract_skips_unparsable :
  _extract_financial_metrics (str "eps: ,") = Ok []
  /\ ~ cue_free (str "eps: ,").
Proof.
  split; [vm_compute; reflexivity|].
  intro H. apply (H (str "eps") _ (or_intror (or_intror (or_introl eq_refl)))).
  apply re_search_spec. vm_compute. discriminate.
Qed.

(** C6. The metric extractor is total: on every text it returns a list and
    raises nothing.  The list is made of the metrics of the matches whose
    captured number parses; a match whose number does not parse contributes
    nothing ([kept] is empty for it) and raises nothing.  A text in which no
    label of the registry occurs gives the empty list. *)
Theorem extract_total (text : pystr) :
  exists metrics,
    _extract_financial_metrics text = Ok metrics
    /\ metrics = extracted_from financial_patterns (lower text)
    /\ (forall metric_name m g,
          group1 m = Some g ->
          py_float (remove_commas g) = Raise ValueError ->
          kept metric_name m = [])
    /\ (cue_free text -> metrics = []).
Proof.
  exists (extracted_from financial_patterns (lower text)).
  split; [apply extract_eq | split; [reflexivity | split]].
  - intros metric_name m g Hg Hf. unfold kept. now rewrite Hg, Hf.
  - apply cue_free_no_match.
Qed.

Lemma extract_total_witness :
  cue_free (str "Annual report 2023")
  /\ _extract_financial_metrics (str "Annual report 2023") = Ok [].
Proof.
  assert (Hfree : cue_free (str "Annual report 2023"))
    by (apply cue_freeb_spec; vm_compute; reflexivity).
  split; [exact Hfree|].
  destruct (extract_total (str "Annual report 2023")) as [metrics [H [_ [_ Hnil]]]].
  rewrite H. f_equal. exact (Hnil Hfree).
Defined.

(** C5. On ["Total revenue: $1,234.5 million"] the extractor returns exactly
    one metric: name [revenue], value 1234.5 (the comma removed), unit
    [millions], period [current], confidence 0.7. *)
Theorem extract_total_revenue :
  _extract_financial_metrics (str "Total revenue: $1,234.5 million")
  = Ok [FinancialMetric.make (str "revenue") (decimal 12345 1) (str "millions")
          (str "current") (str "document_extraction") (decimal 7 1)].
Proof. vm_compute. reflexivity. Qed.

(** C3. On ["EPS: 2.15\nP/E Ratio: 18.3"] the extractor returns exactly two
    metrics: [eps] with value 2.15 and unit [units], then [pe_ratio] with
    value 18.3 and unit [ratio]; the resolver sees the whole matched span
    ["p/e ratio: 18.3"], which contains the word [ratio]. *)
Theorem extract_eps_pe_ratio :
  _extract_financial_metrics (str "EPS: 2.15" ++ [NL] ++ str "P/E Ratio: 18.3")
  = Ok [FinancialMetric.make (str "eps") (decimal 215 2) (str "units")
          (str "current") (str "document_extraction") (decimal 7 1);
        FinancialMetric.make (str "pe_ratio") (decimal 183 1) (str "ratio")
          (str "current") (str "document_extraction") (decimal 7 1)]
  /\ In {| group0 := str "p/e ratio: 18.3"; group1 := Some (str "18.3");
           after := [] |}
        (finditer (metric_pattern
                     (alts [word "p/e ratio"; word "pe ratio";
                            (word "price" ;; Cls dot ;; word "earnings")%re])
                     sep Eps)
                  (lower (str "EPS: 2.15" ++ [NL] ++ str "P/E Ratio: 18.3")))
  /\ _determine_unit (str "p/e ratio: 18.3") = str "ratio".
Proof. vm_compute. auto. Qed.

(** C10. Extraction does not see letter case: the extractor returns the
    same list on a text and on its lower-cased form, hence the same list,
    field by field, on two texts that differ in letter case only. *)
Theorem extract_case_insensitive (text text' : pystr) :
  _extract_financial_metrics text = _extract_financial_metrics (lower text)
  /\ (lower text = lower text' ->
      _extract_financial_metrics text = _extract_financial_metrics text').
Proof.
  unfold _extract_financial_metrics. split.
  - now rewrite lower_idem.
  - now intros ->.
Qed.

Lemma extract_case_insensitive_witness :
  _extract_financial_metrics (str "NET INCOME: 12 Million")
  = _extract_financial_metrics (str "Net income: 12 million").
Proof.
  apply (proj2 (extract_case_insensitive (str "NET INCOME: 12 Million")
                                         (str "Net income: 12 million"))).
  vm_compute. reflexivity.
Defined.

(** Where a metric of the result comes from. *)
Lemma extracted_from_inv (text_lower : pystr) (metric : FinancialMetric.t) :
  In metric (extracted_from financial_patterns text_lower) ->
  exists metric_name pattern m,
    In (metric_name, pattern) financial_patterns
    /\ In m (finditer pattern text_lower)
    /\ In metric (kept metric_name m).
Proof.
  unfold extracted_from. intro H.
  apply in_flat_map in H as [[metric_name pattern] [Hreg H]].
  apply in_flat_map in H as [m [Hm H]].
  exists metric_name, pattern, m. auto.
Qed.

(** With 400 nines after the label the captured numeral is above the
    binary64 range and [float] answers infinity. *)
Lemma extract_not_always_finite :
  exists metric,
    _extract_financial_metrics (str "eps: " ++ repeat "9"%char 400)
    = Ok [metric]
    /\ FinancialMetric.value metric = Inf false
    /\ is_finite (FinancialMetric.value metric) = false.
Proof.
  eexists. split; [vm_compute; reflexivity | split; reflexivity].
Qed.

(** C7 (amended). Every metric the extractor emits has period [current],
    source [document_extraction], confidence 0.7 and a non-negative value;
    it comes from a match of the registry pattern of its name, its unit is
    the resolver's answer on the whole matched span (group 0), and its value
    is the float of the captured numeral (group 1 without commas): finite
    exactly when that numeral is below [2^1024 - 2^970], and plus infinity
    otherwise. *)
Theorem extract_metric_fields (text : pystr)
        (metrics : list FinancialMetric.t) (metric : FinancialMetric.t) :
  _extract_financial_metrics text = Ok metrics ->
  In metric metrics ->
  FinancialMetric.period metric = str "current"
  /\ FinancialMetric.source metric = str "document_extraction"
  /\ FinancialMetric.confidence metric = decimal 7 1
  /\ non_negative (FinancialMetric.value metric) = true
  /\ exists pattern m g mantissa e,
       In (FinancialMetric.name metric, pattern) financial_patterns
       /\ In m (finditer pattern (lower text))
       /\ FinancialMetric.unit metric = _determine_unit (group0 m)
       /\ group1 m = Some g
       /\ parse_decimal (remove_commas g) = Some (mantissa, e)
       /\ FinancialMetric.value metric = round_decimal false mantissa e
       /\ (is_finite (FinancialMetric.value metric) = true
           <-> (mantissa < float_overflow * 10 ^ Z.of_nat e)%Z).
Proof.
  rewrite extract_eq. intros [= <-] Hin.
  apply extracted_from_inv in Hin as [metric_name [pattern [m [Hreg [Hm Hk]]]]].
  destruct (@registry_match _ _ _ _ Hreg Hm) as [n [Hg [Hn _]]].
  unfold kept in Hk. rewrite Hg in Hk.
  rewrite (py_float_unsigned _ (number_alphabet Hn)) in Hk.
  destruct (parse_decimal (remove_commas n)) as [[mantissa e]|] eqn:Hp;
    [|contradiction].
  destruct Hk as [<- | []]. cbn [FinancialMetric.period FinancialMetric.source
    FinancialMetric.confidence FinancialMetric.value FinancialMetric.unit
    FinancialMetric.name].
  repeat (split; [reflexivity|]).
  split; [apply round_decimal_nonneg; exact (parse_decimal_nonneg _ Hp)|].
  exists pattern, m, n, mantissa, e.
  repeat (split; [assumption || reflexivity|]).
  apply round_decimal_finite.
Qed.

Lemma extract_metric_fields_witness :
  let metric :=
    FinancialMetric.make (str "net_income") (decimal 2500 0) (str "thousands")
      (str "current") (str "document_extraction") (decimal 7 1) in
  _extract_financial_metrics (str "Net income: $2,500 thousand") = Ok [metric]
  /\ FinancialMetric.confidence metric = decimal 7 1
  /\ non_negative (FinancialMetric.value metric) = true.
Proof.
  intro metric.
  assert (H : _extract_financial_metrics (str "Net income: $2,500 thousand")
              = Ok [metric]) by (vm_compute; reflexivity).
  split; [exact H|].
  destruct (@extract_metric_fields _ _ metric H (or_introl eq_refl))
    as [_ [_ [Hconf [Hpos _]]]].
  split; [exact Hconf | exact Hpos].
Defined.

(** ** Lines *)

Lemma dot_not_newline (c : ascii) : dot c = true <-> c <> NL.
Proof.
  unfold dot. rewrite negb_true_iff. split.
  - intros H ->. now rewrite chr_eqb_refl in H.
  - intro H. destruct (chr_eqb c NL) eqn:E; [|reflexivity].
    apply chr_eqb_eq in E. contradiction.
Qed.

Lemma split_lines_nonempty (s : pystr) : split_lines s <> [].
Proof.
  destruct s as [|c s]; simpl; [discriminate|].
  destruct (chr_eqb c NL); [discriminate|].
  destruct (split_lines s); discriminate.
Qed.

(** No line of [text.split('\n')] contains a line feed. *)
Lemma split_lines_no_newline (text line : pystr) :
  In line (split_lines text) -> forallb dot line = true.
Proof.
  revert line. induction text as [|c s IH]; intros line Hin; simpl in Hin.
  - destruct Hin as [<- | []]. reflexivity.
  - destruct (chr_eqb c NL) eqn:Hc.
    + destruct Hin as [<- | Hin]; [reflexivity | now apply IH].
    + destruct (split_lines s) as [|l ls] eqn:Hs.
      * now destruct (split_lines_nonempty s).
      * destruct Hin as [<- | Hin].
        -- simpl. unfold dot at 1. rewrite Hc. simpl. apply IH. now left.
        -- apply IH. now right.
Qed.

Lemma split_lines_line (l : pystr) :
  forallb dot l = true -> split_lines l = [l].
Proof.
  induction l as [|c l IH]; simpl; intro H; [reflexivity|].
  apply andb_true_iff in H as [Hc Hl]. unfold dot in Hc.
  apply negb_true_iff in Hc. rewrite Hc, (IH Hl). reflexivity.
Qed.

Lemma split_lines_app (l t : pystr) :
  forallb dot l = true -> split_lines (l ++ NL :: t) = l :: split_lines t.
Proof.
  induction l as [|c l IH]; simpl; intro H.
  - reflexivity.
  - apply andb_true_iff in H as [Hc Hl]. unfold dot in Hc.
    apply negb_true_iff in Hc. rewrite Hc, (IH Hl). reflexivity.
Qed.

(** [split] undoes [join] on lines without line feeds. *)
Lemma split_join (lines : list pystr) :
  lines <> [] ->
  Forall (fun l => forallb dot l = true) lines ->
  split_lines (join_lines lines) = lines.
Proof.
  induction lines as [|l ls IH]; intros Hne Hall; [now contradiction Hne|].
  inversion Hall as [|? ? Hl Hls]; subst.
  destruct ls as [|l2 ls].
  - simpl. now apply split_lines_line.
  - change (join_lines (l :: l2 :: ls)) with (l ++ NL :: join_lines (l2 :: ls)).
    rewrite split_lines_app by exact Hl.
    rewrite IH; [reflexivity | discriminate | exact Hls].
Qed.

(** ** The table-row test *)

Lemma count_digits_app (a b : pystr) :
  count_digits (a ++ b) = count_digits a + count_digits b.
Proof. unfold count_digits. now rewrite filter_app, length_app. Qed.

Lemma count_digits_cons (d : ascii) (b : pystr) :
  is_digit d = true -> count_digits (d :: b) = S (count_digits b).
Proof. intro H. unfold count_digits. simpl. now rewrite H. Qed.

Lemma one_digit (b : pystr) :
  1 <= count_digits b ->
  exists x d y, b = x ++ d :: y /\ is_digit d = true
                /\ count_digits b = S (count_digits y).
Proof.
  induction b as [|c b IH]; intro H.
  - unfold count_digits in H. simpl in H. lia.
  - destruct (is_digit c) eqn:Hc.
    + exists [], c, b. split; [reflexivity | split; [exact Hc|]].
      now apply count_digits_cons.
    + assert (Hcount : count_digits (c :: b) = count_digits b)
        by (unfold count_digits; simpl; now rewrite Hc).
      rewrite Hcount in *. destruct (IH H) as [x [d [y [-> [Hd Hy]]]]].
      exists (c :: x), d, y. auto.
Qed.

Lemma two_digits (b : pystr) :
  2 <= count_digits b ->
  exists x d2 y d3 z,
    b = x ++ d2 :: y ++ d3 :: z /\ is_digit d2 = true /\ is_digit d3 = true.
Proof.
  intro H. destruct (@one_digit b) as [x [d2 [t [-> [Hd2 Hc]]]]]; [lia|].
  destruct (@one_digit t) as [y [d3 [z [-> [Hd3 _]]]]]; [lia|].
  exists x, d2, y, d3, z. auto.
Qed.

Lemma forallb_app_inv (p : ascii -> bool) (a b : pystr) :
  forallb p (a ++ b) = true -> forallb p a = true /\ forallb p b = true.
Proof. rewrite forallb_app. apply andb_true_iff. Qed.

(** What [\s+\d+.*\d+.*\d+] matches. *)
Lemma table_row_pattern_sem (w : pystr) (g g' : option pystr) :
  sem table_row_pattern w g g' ->
  exists ws sp d ds x d2 ds2 y d3 ds3,
    w = ws ++ sp :: (d :: ds) ++ x ++ (d2 :: ds2) ++ y ++ (d3 :: ds3)
    /\ is_space sp = true /\ is_digit d = true
    /\ is_digit d2 = true /\ is_digit d3 = true.
Proof.
  unfold table_row_pattern. intro H.
  apply sem_seq_inv in H as [w1 [t1 [g1 [-> [H1 H]]]]].
  apply sem_seq_inv in H as [w2 [t2 [g2 [-> [H2 H]]]]].
  apply sem_seq_inv in H as [x [t3 [g3 [-> [_ H]]]]].
  apply sem_seq_inv in H as [w4 [t4 [g4 [-> [H4 H]]]]].
  apply sem_seq_inv in H as [y [w6 [g5 [-> [_ H6]]]]].
  apply sem_plus_inv in H1 as [_ [s1 [ws [-> [Hs1 Hws]]]]].
  apply sem_plus_inv in H2 as [_ [d [ds [-> [Hd _]]]]].
  apply sem_plus_inv in H4 as [_ [d2 [ds2 [-> [Hd2 _]]]]].
  apply sem_plus_inv in H6 as [_ [d3 [ds3 [-> [Hd3 _]]]]].
  assert (Hlast : exists init sp, s1 :: ws = init ++ [sp] /\ is_space sp = true).
  { destruct (exists_last (l := s1 :: ws)) as [init [sp Heq]]; [discriminate|].
    exists init, sp. split; [exact Heq|].
    assert (Hall : forallb is_space (s1 :: ws) = true)
      by (simpl; now rewrite Hs1, Hws).
    rewrite Heq in Hall. apply forallb_app_inv in Hall as [_ Hsp].
    simpl in Hsp. now rewrite andb_true_r in Hsp. }
  destruct Hlast as [init [sp [Heq Hsp]]].
  exists init, sp, d, ds, x, d2, ds2, y, d3, ds3.
  split; [|auto]. rewrite Heq, <- app_assoc. reflexivity.
Qed.

(** The test of the detector, in plain terms: somewhere in the line a white
    space character is directly followed by a digit, and at least two more
    digits come later in the line. *)
Lemma is_table_row_spec (line : pystr) :
  forallb dot line = true ->
  is_table_row line = true
  <-> exists a sp d b,
        line = a ++ sp :: d :: b /\ is_space sp = true /\ is_digit d = true
        /\ 2 <= count_digits b.
Proof.
  intro Hdot. unfold is_table_row.
  assert (Hiff : re_search table_row_pattern line <> None
                 <-> exists a sp d b,
                       line = a ++ sp :: d :: b /\ is_space sp = true
                       /\ is_digit d = true /\ 2 <= count_digits b).
  { rewrite re_search_spec. split.
    - intros [a [w [b0 [-> [g' Hsem]]]]].
      apply table_row_pattern_sem in Hsem
        as [ws [sp [d [ds [x [d2 [ds2 [y [d3 [ds3 [-> [Hsp [Hd [Hd2 Hd3]]]]]]]]]]]]]].
      exists (a ++ ws), sp, d, (ds ++ x ++ (d2 :: ds2) ++ y ++ (d3 :: ds3) ++ b0).
      split; [|split; [exact Hsp | split; [exact Hd|]]].
      + list_norm. reflexivity.
      + cbn [app]. rewrite !count_digits_app.
        rewrite (@count_digits_cons d2 _ Hd2), !count_digits_app.
        rewrite (@count_digits_cons d3 _ Hd3). lia.
    - intros [a [sp [d [b [-> [Hsp [Hd Hb]]]]]]].
      apply two_digits in Hb as [x [d2 [y [d3 [z [-> [Hd2 Hd3]]]]]]].
      apply forallb_app_inv in Hdot as [_ Hdot]. simpl in Hdot.
      apply andb_true_iff in Hdot as [_ Hdot].
      apply andb_true_iff in Hdot as [_ Hdot].
      apply forallb_app_inv in Hdot as [Hx Hdot]. simpl in Hdot.
      apply andb_true_iff in Hdot as [_ Hdot].
      apply forallb_app_inv in Hdot as [Hy _].
      exists a, ([sp] ++ [d] ++ x ++ [d2] ++ y ++ [d3]), z.
      split; [list_norm; reflexivity|].
      exists None. unfold table_row_pattern.
      repeat (apply sem_seq with None);
        try (apply sem_plus_intro; [assumption | reflexivity]);
        now constructor. }
  destruct (re_search table_row_pattern line); split; intro H.
  - apply Hiff. discriminate.
  - reflexivity.
  - discriminate.
  - apply Hiff in H. now contradiction H.
Qed.

(** The line [" 123"] holds a single token, yet it passes the test of the
    detector. *)
Lemma table_row_single_token :
  is_table_row (str " 123") = true
  /\ tokens (str " 123") = [str "123"]
  /\ three_numeric_tokens (str " 123") = false.
Proof. vm_compute. auto. Qed.

(** The line ["1 2 3"] holds three numeric tokens and fails the test: no
    white space comes before its first digit. *)
Example table_row_three_tokens_rejected :
  is_table_row (str "1 2 3") = false
  /\ three_numeric_tokens (str "1 2 3") = true.
Proof. vm_compute. auto. Qed.

Lemma table_step_row (tables : list table) (current_table : list pystr)
      (line : pystr) :
  is_table_row line = true ->
  table_step (tables, current_table) line
  = (tables, current_table ++ [strip line]).
Proof. intro H. unfold table_step. now rewrite H. Qed.

Lemma table_step_stop (tables : list table) (current_table : list pystr)
      (line : pystr) :
  is_table_row line = false ->
  table_step (tables, current_table) line
  = (tables ++ (if 2 <? length current_table
                then [extracted_table current_table (decimal 6 1)]
                else []),
     []).
Proof.
  intro H. unfold table_step. rewrite H.
  destruct current_table as [|l ls]; cbn [negb].
  - now rewrite app_nil_r.
  - destruct (2 <? length (l :: ls)); [reflexivity | now rewrite app_nil_r].
Qed.

(** C2 (amended). In the table detector a line counts as a numeric row
    exactly when, somewhere in it, a white space character is directly
    followed by a digit and at least two more digits come later in the line
    (the pattern [\s+\d+.*\d+.*\d+]); a row extends the current run by its
    trimmed text, and every line failing the test leaves the current run
    empty, closing it if it was open. *)
Theorem table_row_test (text line : pystr) (tables : list table)
        (current_table : list pystr) :
  In line (split_lines text) ->
  (is_table_row line = true
   <-> exists a sp d b,
         line = a ++ sp :: d :: b /\ is_space sp = true /\ is_digit d = true
         /\ 2 <= count_digits b)
  /\ (is_table_row line = true ->
      table_step (tables, current_table) line
      = (tables, current_table ++ [strip line]))
  /\ (is_table_row line = false ->
      snd (table_step (tables, current_table) line) = []).
Proof.
  intro Hin. split; [|split].
  - apply is_table_row_spec. now apply split_lines_no_newline with text.
  - apply table_step_row.
  - intro H. now rewrite table_step_stop.
Qed.

Lemma table_row_test_witness :
  In (str "Sales 10 20") (split_lines (str "Sales 10 20"))
  /\ table_step ([], []) (str "Sales 10 20") = ([], [str "Sales 10 20"]).
Proof.
  assert (Hin : In (str "Sales 10 20") (split_lines (str "Sales 10 20")))
    by (left; reflexivity).
  split; [exact Hin|].
  destruct (@table_row_test _ _ [] [] Hin) as [_ [Hrow _]].
  apply Hrow. vm_compute. reflexivity.
Defined.

(** ** Runs of rows *)

Lemma fold_run (run : list pystr) :
  forallb is_table_row run = true ->
  forall tables current_table,
    fold_left table_step run (tables, current_table)
    = (tables, current_table ++ map strip run).
Proof.
  induction run as [|l run IH]; cbn [fold_left forallb map];
    intros H tables current_table.
  - now rewrite app_nil_r.
  - apply andb_true_iff in H as [Hl Hrun].
    rewrite (@table_step_row _ _ _ Hl), (IH Hrun), <- app_assoc. reflexivity.
Qed.

Lemma table_step_prefix (tables : list table) (current_table : list pystr)
      (line : pystr) :
  table_step (tables, current_table) line
  = (tables ++ fst (table_step ([], current_table) line),
     snd (table_step ([], current_table) line)).
Proof.
  destruct (is_table_row line) eqn:H.
  - rewrite !(@table_step_row _ _ _ H). simpl. now rewrite app_nil_r.
  - rewrite !(@table_step_stop _ _ _ H). reflexivity.
Qed.

Lemma fold_tables_prefix (lines : list pystr) :
  forall tables current_table,
    fst (fold_left table_step lines (tables, current_table))
    = tables ++ fst (fold_left table_step lines ([], current_table)).
Proof.
  induction lines as [|l lines IH]; intros tables current_table;
    cbn [fold_left fst].
  - now rewrite app_nil_r.
  - rewrite (table_step_prefix tables).
    destruct (table_step ([], current_table) l) as [emitted cur'].
    cbn [fst snd]. rewrite IH, (IH emitted), app_assoc. reflexivity.
Qed.

Lemma extract_tables_join (lines : list pystr) :
  Forall (fun l => forallb dot l = true) lines ->
  _extract_tables_from_text (join_lines lines)
  = fst (fold_left table_step lines ([], [])).
Proof.
  intro Hall. unfold _extract_tables_from_text.
  destruct lines as [|l ls].
  - vm_compute. reflexivity.
  - rewrite split_join; [reflexivity | discriminate | exact Hall].
Qed.

(** A run of rows closed by a line that is not a row. *)
Lemma closed_run (run : list pystr) (stop : pystr) (rest : list pystr) :
  Forall (fun l => forallb dot l = true) (run ++ stop :: rest) ->
  forallb is_table_row run = true ->
  is_table_row stop = false ->
  _extract_tables_from_text (join_lines (run ++ stop :: rest))
  = (if 2 <? length run
     then [extracted_table (map strip run) (decimal 6 1)]
     else [])
    ++ _extract_tables_from_text (join_lines rest).
Proof.
  intros Hall Hrun Hstop.
  rewrite (@extract_tables_join _ Hall), extract_tables_join.
  - rewrite fold_left_app, (@fold_run _ Hrun). cbn [fold_left app].
    rewrite (@table_step_stop _ _ _ Hstop), fold_tables_prefix.
    cbn [app]. now rewrite length_map.
  - apply Forall_app in Hall as [_ Hall]. now inversion Hall.
Qed.

(** A run of rows that reaches the end of the input. *)
Lemma open_run (run : list pystr) :
  Forall (fun l => forallb dot l = true) run ->
  forallb is_table_row run = true ->
  _extract_tables_from_text (join_lines run) = [].
Proof.
  intros Hall Hrun.
  now rewrite (@extract_tables_join _ Hall), (@fold_run _ Hrun).
Qed.

(** Every text is the join of its lines, and every list of lines is either
    a run of rows or a run of rows, a line that is not a row, and a rest: the
    two cases [closed_run] and [open_run] answer for. *)
Lemma join_lines_cons (l : pystr) (ls : list pystr) :
  ls <> [] -> join_lines (l :: ls) = l ++ NL :: join_lines ls.
Proof. destruct ls; [intro H; now contradiction H | reflexivity]. Qed.

Lemma join_lines_head (c : ascii) (l : pystr) (ls : list pystr) :
  join_lines ((c :: l) :: ls) = c :: join_lines (l :: ls).
Proof. destruct ls; reflexivity. Qed.

Lemma join_split (text : pystr) : join_lines (split_lines text) = text.
Proof.
  induction text as [|c s IH]; [reflexivity|].
  cbn [split_lines]. destruct (chr_eqb c NL) eqn:Hc.
  - apply chr_eqb_eq in Hc as ->.
    rewrite join_lines_cons by apply split_lines_nonempty. now rewrite IH.
  - destruct (split_lines s) as [|l ls] eqn:Hs;
      [now destruct (split_lines_nonempty s)|].
    now rewrite join_lines_head, IH.
Qed.

Lemma lines_decompose (lines : list pystr) :
  forallb is_table_row lines = true
  \/ exists run stop rest,
       lines = run ++ stop :: rest
       /\ forallb is_table_row run = true /\ is_table_row stop = false.
Proof.
  induction lines as [|l lines IH]; [now left|].
  destruct (is_table_row l) eqn:Hl.
  - destruct IH as [IH | [run [stop [rest [-> [Hrun Hstop]]]]]].
    + left. cbn [forallb]. now rewrite Hl.
    + right. exists (l :: run), stop, rest. cbn [forallb]. now rewrite Hl.
  - right. exists [], l, lines. auto.
Qed.

(** C4. The table detector emits exactly the runs of consecutive row lines
    that a following line, not a row, closes and that hold more than two
    lines, each as one table of confidence 0.6 with the trimmed lines of the
    run in order: a closed run of more than two lines contributes its table
    before whatever the rest of the text gives, a closed run of two lines or
    fewer contributes nothing, and a run that reaches the end of the input is
    not emitted.  So three row lines and a closing line give exactly one
    table of those three lines, and two row lines give none. *)
Theorem table_runs (run : list pystr) (stop : pystr) (rest : list pystr) :
  Forall (fun l => forallb dot l = true) (run ++ stop :: rest) ->
  forallb is_table_row run = true ->
  is_table_row stop = false ->
  _extract_tables_from_text (join_lines (run ++ stop :: rest))
  = (if 2 <? length run
     then [extracted_table (map strip run) (decimal 6 1)]
     else [])
    ++ _extract_tables_from_text (join_lines rest)
  /\ _extract_tables_from_text (join_lines run) = []
  /\ (length run = 3 ->
      _extract_tables_from_text (join_lines (run ++ [stop]))
      = [extracted_table (map strip run) (decimal 6 1)])
  /\ (length run <= 2 ->
      _extract_tables_from_text (join_lines (run ++ [stop])) = []).
Proof.
  intros Hall Hrun Hstop.
  assert (Hall' : Forall (fun l => forallb dot l = true) (run ++ [stop])).
  { apply Forall_app in Hall as [H1 H2]. apply Forall_app. split; [exact H1|].
    inversion H2; subst. now constructor. }
  split; [now apply closed_run | split; [|split]].
  - apply open_run; [|exact Hrun]. now apply Forall_app in Hall as [H1 _].
  - intro Hlen. rewrite (@closed_run _ _ _ Hall' Hrun Hstop), Hlen.
    cbn [Nat.ltb Nat.leb join_lines]. now rewrite app_nil_r.
  - intro Hlen. rewrite (@closed_run _ _ _ Hall' Hrun Hstop).
    destruct (Nat.ltb_spec 2 (length run)); [lia | reflexivity].
Qed.

Lemma table_runs_witness :
  let nl := [NL] in
  let run := [str "  Revenue 100 200 "; str " Costs 60 120";
              str " Profit 40 80"] in
  let table := extracted_table [str "Revenue 100 200"; str "Costs 60 120";
                                str "Profit 40 80"] (decimal 6 1) in
  _extract_tables_from_text
    (str "  Revenue 100 200 " ++ nl ++ str " Costs 60 120" ++ nl
     ++ str " Profit 40 80" ++ nl ++ str "Notes" ++ nl ++ str " Total 7 100")
  = [table]
  /\ _extract_tables_from_text (join_lines (run ++ [str "Notes"])) = [table]
  /\ _extract_tables_from_text (join_lines run) = [].
Proof.
  intros nl run table.
  assert (Hall : Forall (fun l => forallb dot l = true)
                        (run ++ str "Notes" :: [str " Total 7 100"]))
    by (repeat constructor).
  destruct (@table_runs run (str "Notes") [str " Total 7 100"] Hall
              eq_refl eq_refl) as [Hclosed [Hopen [Hthree _]]].
  split; [exact Hclosed | split; [exact (Hthree eq_refl) | exact Hopen]].
Defined.

(** ** Orchestration *)

Section OrchestratorProperties.

Variable Page : Type.
Variable extract_text : Page -> pystr.

Variable DataFrame : Type.
Variable to_string : DataFrame -> pystr.
Variable to_dict_records : DataFrame -> list record.
Variable columns_tolist : DataFrame -> list pystr.

(** The loop of [parse_excel] never fails; it appends, sheet by sheet, the
    rendering to [text], the sheet's table to [tables] and the sheet's
    metrics to [all_metrics]. *)
Lemma excel_loop_eq (excel_data : list (pystr * DataFrame)) :
  forall text tables all_metrics,
    excel_loop to_string to_dict_records columns_tolist excel_data
               (text, tables, all_metrics)
    = Ok (text ++ flat_map (fun sheet =>
                              str "Sheet: " ++ fst sheet ++ [NL]
                              ++ to_string (snd sheet) ++ [NL; NL])
                           excel_data,
          tables ++ map (fun sheet =>
                           sheet_table (fst sheet)
                                       (to_dict_records (snd sheet))
                                       (columns_tolist (snd sheet)))
                        excel_data,
          all_metrics ++ flat_map (fun sheet =>
                                     extracted_from financial_patterns
                                       (lower (to_string (snd sheet))))
                                  excel_data).
Proof.
  induction excel_data as [|[sheet_name df] sheets IH];
    intros text tables all_metrics.
  - cbn [excel_loop flat_map map]. now rewrite !app_nil_r.
  - cbn [excel_loop excel_step flat_map map fst snd].
    rewrite extract_eq. cbn [bind]. rewrite IH.
    now rewrite <- !app_assoc.
Qed.

(** C8. The confidence of an extraction result is a constant of the path:
    0.8 on the text (PDF) path, 0.9 on the sheet (Excel) path and on the
    single-table (CSV) path, whatever the pages, sheets or table and
    whatever metrics and tables were found. *)
Theorem path_confidence (pages : list Page)
        (excel_data : list (pystr * DataFrame)) (df : DataFrame) :
  (exists r, parse_pdf extract_text pages = Ok r
             /\ Parsed.confidence r = decimal 8 1)
  /\ (exists r, parse_excel to_string to_dict_records columns_tolist
                            excel_data = Ok r
                /\ Parsed.confidence r = decimal 9 1)
  /\ (exists r, parse_csv to_string to_dict_records columns_tolist df = Ok r
                /\ Parsed.confidence r = decimal 9 1).
Proof.
  split; [|split].
  - unfold parse_pdf. rewrite extract_eq. cbn [bind or_http_500].
    eexists. split; reflexivity.
  - unfold parse_excel. rewrite excel_loop_eq.
    cbn [bind or_http_500]. eexists. split; reflexivity.
  - unfold parse_csv. rewrite extract_eq. cbn [bind or_http_500].
    eexists. split; reflexivity.
Qed.

(** C9 (amended). On the sheet path an input of n sheets gives n tables,
    in sheet order, the table of a sheet carrying the sheet's name, its row
    records and its column names as the source gives them; the metrics are
    the concatenation, in sheet order, of what the metric extractor returns
    on each sheet's tabular dump [df.to_string()] alone: the sheet label is
    part of the rendering gathered in the text of the result, and is not
    passed to the extractor.  Two sheets give two tables. *)
Theorem sheet_path (excel_data : list (pystr * DataFrame))
        (sheet1 sheet2 : pystr * DataFrame) :
  (exists r,
      parse_excel to_string to_dict_records columns_tolist excel_data = Ok r
      /\ Parsed.tables r
         = map (fun sheet => sheet_table (fst sheet)
                                         (to_dict_records (snd sheet))
                                         (columns_tolist (snd sheet)))
               excel_data
      /\ length (Parsed.tables r) = length excel_data
      /\ Parsed.extracted_text r
         = flat_map (fun sheet => str "Sheet: " ++ fst sheet ++ [NL]
                                  ++ to_string (snd sheet) ++ [NL; NL])
                    excel_data
      /\ exists per_sheet,
           Forall2 (fun sheet sheet_metrics =>
                      _extract_financial_metrics (to_string (snd sheet))
                      = Ok sheet_metrics)
                   excel_data per_sheet
           /\ Parsed.metrics r = concat per_sheet)
  /\ (exists r,
         parse_excel to_string to_dict_records columns_tolist [sheet1; sheet2]
         = Ok r
         /\ Parsed.tables r
            = [sheet_table (fst sheet1) (to_dict_records (snd sheet1))
                           (columns_tolist (snd sheet1));
               sheet_table (fst sheet2) (to_dict_records (snd sheet2))
                           (columns_tolist (snd sheet2))]
         /\ length (Parsed.tables r) = 2).
Proof.
  unfold parse_excel. rewrite !excel_loop_eq.
  cbn [bind or_http_500 app]. split.
  - eexists. split; [reflexivity|].
    cbn [Parsed.tables Parsed.metrics Parsed.extracted_text].
    split; [reflexivity | split; [apply length_map | split; [reflexivity|]]].
    exists (map (fun sheet => extracted_from financial_patterns
                                (lower (to_string (snd sheet))))
                excel_data).
    split.
    + induction excel_data as [|sheet sheets IH]; constructor;
        [apply extract_eq | exact IH].
    + now rewrite flat_map_concat_map.
  - eexists. split; [reflexivity | split; reflexivity].
Qed.

End OrchestratorProperties.

(** The sheet label is not shown to the extractor.  For the sheet
    [Revenue] whose dump starts with the header [2023  2024], the text of
    the result holds the rendering with the label, ["Sheet: Revenue"], a
    line feed and the dump; the extractor run on that rendering finds the
    label followed by the first header number, a [revenue] metric of value
    2023; the sheet path, which runs it on the dump alone, finds nothing. *)
Lemma sheet_label_not_extracted :
  let dump := str "   2023  2024" ++ [NL] ++ str "0    10    20" in
  let rendering := str "Sheet: Revenue" ++ [NL] ++ dump ++ [NL; NL] in
  exists r,
    parse_excel Toy.to_string Toy.to_dict_records Toy.columns_tolist
                [(str "Revenue", dump)] = Ok r
    /\ Parsed.extracted_text r = rendering
    /\ Parsed.metrics r = []
    /\ _extract_financial_metrics rendering
       = Ok [FinancialMetric.make (str "revenue") (decimal 2023 0)
               (str "units") (str "current") (str "document_extraction")
               (decimal 7 1)]
    /\ _extract_financial_metrics rendering <> Ok (Parsed.metrics r).
Proof.
  intros dump rendering. eexists.
  split; [vm_compute; reflexivity|].
  split; [vm_compute; reflexivity|].
  split; [vm_compute; reflexivity|].
  split; [vm_compute; reflexivity|].
  vm_compute. discriminate.
Qed.

(** ** The unit resolver *)

(** The resolver always answers, with one of the six tags. *)
Lemma determine_unit_range (context : pystr) :
  In (_determine_unit context)
     [str "billions"; str "millions"; str "thousands"; str "percentage";
      str "ratio"; str "units"].
Proof.
  unfold _determine_unit.
  repeat match goal with
         | |- context [if ?b then _ else _] => destruct b
         end; cbn [In]; auto 10.
Qed.

(** What the resolver tests, first match first: the words as substrings of
    the lower-cased context, and the magnitude letters as the two-character
    substrings [" b"], [" m"], [" k"] (a space and the letter, whatever
    follows the letter). *)
Lemma determine_unit_cases (context : pystr) :
  let has := fun p : string =>
               exists a b, lower context = a ++ str p ++ b in
  let u := _determine_unit context in
  (has "billion"%string \/ has " b"%string -> u = str "billions")
  /\ (~ (has "billion"%string \/ has " b"%string) ->
      (has "million"%string \/ has " m"%string -> u = str "millions")
      /\ (~ (has "million"%string \/ has " m"%string) ->
          (has "thousand"%string \/ has " k"%string -> u = str "thousands")
          /\ (~ (has "thousand"%string \/ has " k"%string) ->
              (has "%"%string \/ has "percent"%string -> u = str "percentage")
              /\ (~ (has "%"%string \/ has "percent"%string) ->
                  (has "ratio"%string -> u = str "ratio")
                  /\ (~ has "ratio"%string -> u = str "units"))))).
Proof.
  intros has u. subst u. unfold _determine_unit.
  assert (Hor : forall p q : string,
             contains (str p) (lower context) || contains (str q) (lower context)
             = true <-> has p \/ has q).
  { intros p q. rewrite orb_true_iff, !contains_spec. reflexivity. }
  assert (Hnor : forall p q : string,
             ~ (has p \/ has q) ->
             contains (str p) (lower context) || contains (str q) (lower context)
             = false).
  { intros p q H. destruct (_ || _) eqn:E; [|reflexivity].
    apply Hor in E. contradiction. }
  split; [intro H; apply Hor in H; now rewrite H|].
  intro H1. rewrite (Hnor _ _ H1).
  split; [intro H; apply Hor in H; now rewrite H|].
  intro H2. rewrite (Hnor _ _ H2).
  split; [intro H; apply Hor in H; now rewrite H|].
  intro H3. rewrite (Hnor _ _ H3).
  split; [intro H; apply Hor in H; now rewrite H|].
  intro H4. rewrite (Hnor _ _ H4).
  split.
  - intro H. apply contains_spec in H. now rewrite H.
  - intro H. destruct (contains (str "ratio") (lower context)) eqn:E;
      [|reflexivity].
    apply contains_spec in E. contradiction.
Qed.

(** A literal word of an [re.IGNORECASE] pattern matches its own spelling
    up to letter case. *)
Lemma lit_sem (w l : pystr) (g g' : option pystr) :
  sem (lit true w) l g g' -> lower l = lower w /\ g' = g.
Proof.
  revert l g g'. induction w as [|c w IH]; intros l g g' H.
  - inversion H; subst. auto.
  - assert (Hc : forall x g1 g2, sem (Cls (chr true c)) x g1 g2 ->
                                 lower x = [lower_char c] /\ g2 = g1).
    { intros x g1 g2 Hx. apply sem_cls_inv in Hx as [-> [y [-> Hy]]].
      unfold chr in Hy. apply chr_eqb_eq in Hy. simpl. now rewrite Hy. }
    destruct w as [|c2 w].
    + now apply Hc.
    + change (lit true (c :: c2 :: w))
        with (Seq (Cls (chr true c)) (lit true (c2 :: w))) in H.
      apply sem_seq_inv in H as [x [y [g1 [-> [Hx Hy]]]]].
      apply Hc in Hx as [Hx ->]. apply IH in Hy as [Hy ->].
      rewrite lower_app, Hx, Hy. auto.
Qed.

(** Every match of a margin pattern spells [" margin"], which holds
    [" m"]: the resolver answers [millions] (or [billions]) for it and can
    never reach its percent test, although these patterns end in [%?]. *)
Lemma margin_unit_never_percentage (metric_name : pystr) (pattern : regex)
      (text : pystr) (m : rmatch) :
  In (metric_name, pattern) financial_patterns ->
  In metric_name [str "gross_margin"; str "operating_margin"; str "net_margin"] ->
  In m (finditer pattern (lower text)) ->
  _determine_unit (group0 m) = str "millions"
  \/ _determine_unit (group0 m) = str "billions".
Proof.
  intros Hreg Hname Hm.
  assert (Hsub : exists a b, lower (group0 m) = a ++ str " m" ++ b).
  { apply finditer_sound in Hm as [_ [_ Hsem]].
    assert (Hlab : exists w l rest,
               group0 m = l ++ rest /\ lower l = lower (str w)
               /\ exists a b, lower (str w) = a ++ str " m" ++ b).
    { unfold financial_patterns in Hreg. cbn [In] in Hreg, Hname.
      repeat (destruct Hreg as [Hreg | Hreg];
              [injection Hreg as <- <-;
               repeat (destruct Hname as [Hname | Hname];
                       [try discriminate Hname|]); try contradiction|]);
        try contradiction;
        unfold metric_pattern in Hsem;
        apply sem_seq_inv in Hsem as [l [rest [g1 [Hw [Hl _]]]]];
        cbn [alts] in Hl; inversion Hl; subst;
        match goal with
        | H : sem (word ?w) _ _ _ |- _ =>
            apply lit_sem in H as [Hlow _]; exists w, l, rest;
            split; [assumption | split; [exact Hlow|]]
        end;
        first [ now exists (str "gross"), (str "argin")
              | now exists (str "gross profit"), (str "argin")
              | now exists (str "operating"), (str "argin")
              | now exists (str "operating profit"), (str "argin")
              | now exists (str "net"), (str "argin")
              | now exists (str "net profit"), (str "argin") ]. }
    destruct Hlab as [w [l [rest [Hg [Hlow [a [b Hab]]]]]]].
    exists a, (b ++ lower rest).
    rewrite Hg, lower_app, Hlow, Hab. now rewrite <- !app_assoc. }
  destruct (determine_unit_cases (group0 m)) as [Hb Hnb].
  destruct (contains (str "billion") (lower (group0 m))
            || contains (str " b") (lower (group0 m))) eqn:E.
  - right. apply Hb. apply orb_true_iff in E.
    rewrite !contains_spec in E. exact E.
  - left. apply Hnb.
    + intro H. apply orb_false_iff in E as [E1 E2].
      rewrite contains_false in E1, E2. tauto.
    + now right.
Qed.

(** C1. At the context ["gross margin: 45%"] (group 0 of the
    [gross_margin] pattern on ["Gross Margin: 45%"]) the resolver answers
    [millions]: its test for the letter [m] is the substring [" m"], which
    the word ["margin"] provides.  The context has no [million] and no
    standalone [m] token, and it has a [%]: by the stated precedence the
    answer is [percentage]. *)
Theorem determine_unit_margin_percent :
  _determine_unit (str "gross margin: 45%") = str "millions"
  /\ determine_unit_spec (str "gross margin: 45%") = str "percentage"
  /\ tokens (str "gross margin: 45%") = [str "gross"; str "margin:"; str "45%"]
  /\ _extract_financial_metrics (str "Gross Margin: 45%")
     = Ok [FinancialMetric.make (str "gross_margin") (decimal 45 0)
             (str "millions") (str "current") (str "document_extraction")
             (decimal 7 1)].
Proof. vm_compute. auto. Qed.

(** * Further properties of the code *)

(** ** The extractor: order, units, digits *)

Lemma kept_name (metric_name : pystr) (m : rmatch) (metric : FinancialMetric.t) :
  In metric (kept metric_name m) -> FinancialMetric.name metric = metric_name.
Proof.
  unfold kept. destruct (group1 m) as [g|]; [|contradiction].
  destruct (py_float (remove_commas g)); [|contradiction].
  now intros [<- | []].
Qed.

Lemma kept_unit (metric_name : pystr) (m : rmatch) (metric : FinancialMetric.t) :
  In metric (kept metric_name m) ->
  FinancialMetric.unit metric = _determine_unit (group0 m).
Proof.
  unfold kept. destruct (group1 m) as [g|]; [|contradiction].
  destruct (py_float (remove_commas g)); [|contradiction].
  now intros [<- | []].
Qed.

(** The result is made of one block per registry entry, in the order of
    the registry; the metrics of a block all carry the entry's name. *)
Theorem extract_registry_order (text : pystr) :
  exists blocks,
    _extract_financial_metrics text = Ok (concat blocks)
    /\ Forall2 (fun entry block =>
                  Forall (fun metric =>
                            FinancialMetric.name metric = fst entry) block)
               financial_patterns blocks.
Proof.
  exists (map (fun entry => flat_map (kept (fst entry))
                                     (finditer (snd entry) (lower text)))
              financial_patterns).
  split.
  - rewrite extract_eq. unfold extracted_from.
    now rewrite flat_map_concat_map.
  - induction financial_patterns as [|entry entries IH]; constructor;
      [|exact IH].
    apply Forall_forall. intros metric Hin.
    apply in_flat_map in Hin as [m [_ Hin]]. now apply kept_name in Hin.
Qed.

(** A metric of one of the three margin patterns is never tagged
    [percentage]: its matched span spells [" margin"], so the resolver
    stops at [millions], or at [billions] before that. *)
Theorem margin_metric_units (text : pystr) (metrics : list FinancialMetric.t)
        (metric : FinancialMetric.t) :
  _extract_financial_metrics text = Ok metrics ->
  In metric metrics ->
  In (FinancialMetric.name metric)
     [str "gross_margin"; str "operating_margin"; str "net_margin"] ->
  FinancialMetric.unit metric = str "millions"
  \/ FinancialMetric.unit metric = str "billions".
Proof.
  rewrite extract_eq. intros [= <-] Hin Hname.
  apply extracted_from_inv in Hin as [metric_name [pattern [m [Hreg [Hm Hk]]]]].
  rewrite (kept_name _ _ _ Hk) in Hname. rewrite (kept_unit _ _ _ Hk).
  exact (@margin_unit_never_percentage _ _ _ _ Hreg Hname Hm).
Qed.

Lemma margin_metric_units_witness :
  let metric :=
    FinancialMetric.make (str "net_margin") (decimal 125 1) (str "millions")
      (str "current") (str "document_extraction") (decimal 7 1) in
  _extract_financial_metrics (str "Net profit margin: 12.5%") = Ok [metric]
  /\ (FinancialMetric.unit metric = str "millions"
      \/ FinancialMetric.unit metric = str "billions").
Proof.
  intro metric.
  assert (H : _extract_financial_metrics (str "Net profit margin: 12.5%")
              = Ok [metric]) by (vm_compute; reflexivity).
  split; [exact H|].
  apply (@margin_metric_units _ _ metric H (or_introl eq_refl)).
  right. right. left. reflexivity.
Defined.

(** The extractor never emits a unit outside the six tags. *)
Theorem extract_units_in_range (text : pystr) :
  exists metrics,
    _extract_financial_metrics text = Ok metrics
    /\ Forall (fun metric =>
                 In (FinancialMetric.unit metric)
                    [str "billions"; str "millions"; str "thousands";
                     str "percentage"; str "ratio"; str "units"])
              metrics.
Proof.
  exists (extracted_from financial_patterns (lower text)).
  split; [apply extract_eq|].
  apply Forall_forall. intros metric Hin.
  apply extracted_from_inv in Hin as [metric_name [pattern [m [_ [_ Hk]]]]].
  rewrite (kept_unit _ _ _ Hk). apply determine_unit_range.
Qed.

Lemma span_digits_spec (s : pystr) :
  s = fst (span_digits s) ++ snd (span_digits s)
  /\ forallb is_digit (fst (span_digits s)) = true.
Proof.
  induction s as [|c s [IH1 IH2]]; [now split|].
  cbn [span_digits]. destruct (is_digit c) eqn:Hc; [|now split].
  destruct (span_digits s) as [ds rest]. cbn [fst snd] in *.
  split; [cbn [app]; f_equal; exact IH1 | cbn [forallb]; now rewrite Hc].
Qed.

(** A numeral that parses holds a digit. *)
Lemma parse_decimal_has_digit (s : pystr) (m : Z) (e : nat) :
  parse_decimal s = Some (m, e) -> existsb is_digit s = true.
Proof.
  unfold parse_decimal. destruct (span_digits_spec s) as [Hs Hd].
  destruct (span_digits s) as [ip rest]. cbn [fst snd] in *.
  rewrite Hs, existsb_app.
  assert (Hne : forall l, is_empty l = false -> forallb is_digit l = true ->
                          existsb is_digit l = true).
  { intros [|x l]; [discriminate|]. cbn. intros _ H.
    apply andb_true_iff in H as [-> _]. reflexivity. }
  destruct rest as [|c fp].
  - destruct (is_empty ip) eqn:Hip; [discriminate|].
    intros _. now rewrite (Hne ip Hip Hd).
  - destruct (chr_eqb c "."%char && forallb is_digit fp
              && negb (is_empty ip && is_empty fp)) eqn:Hc; [|discriminate].
    intros _. apply andb_true_iff in Hc as [Hc Hnon].
    apply andb_true_iff in Hc as [_ Hfp].
    apply negb_true_iff, andb_false_iff in Hnon as [Hip | Hfe].
    + now rewrite (Hne ip Hip Hd).
    + cbn [existsb]. rewrite (Hne fp Hfe Hfp). now rewrite !orb_true_r.
Qed.

Lemma lower_keeps_digits (s : pystr) :
  existsb is_digit (lower s) = existsb is_digit s.
Proof.
  induction s as [|c s IH]; [reflexivity|].
  cbn [lower map existsb]. fold (lower s). rewrite IH. f_equal.
  destruct c as [[] [] [] [] [] [] [] []]; vm_compute; reflexivity.
Qed.

Lemma existsb_sub (p : ascii -> bool) (a w b : pystr) :
  existsb p (a ++ w ++ b) = false -> existsb p w = false.
Proof.
  rewrite !existsb_app. intro H.
  apply orb_false_iff in H as [_ H]. now apply orb_false_iff in H as [H _].
Qed.

(** The number group 1 holds is a piece of the text. *)
Lemma registry_match_number (metric_name : pystr) (pattern : regex)
      (s : pystr) (m : rmatch) :
  In (metric_name, pattern) financial_patterns ->
  In m (finditer pattern s) ->
  exists n pre post,
    group1 m = Some n /\ sem number n None None /\ s = pre ++ n ++ post.
Proof.
  intros Hreg Hm.
  destruct (registry_shape Hreg) as [label [sp [tail [-> [Hl Ht]]]]].
  apply finditer_sound in Hm as [a [Hs Hsem]].
  apply (metric_pattern_sem Hl Ht) in Hsem as [l [x [n [t [Hw [_ [Hn Hg]]]]]]].
  exists n, (a ++ l ++ x), (t ++ after m).
  split; [exact Hg | split; [exact Hn|]].
  rewrite Hs, Hw. now rewrite <- !app_assoc.
Qed.

(** A text without a digit gives no metric: every pattern needs a numeral,
    and a capture made of commas alone does not parse. *)
Theorem no_digit_no_metric (text : pystr) :
  existsb is_digit text = false ->
  _extract_financial_metrics text = Ok [].
Proof.
  intro Hnone. rewrite extract_eq. f_equal.
  unfold extracted_from. apply flat_map_nil.
  intros [metric_name pattern] Hreg. cbn [fst snd].
  apply flat_map_nil. intros m Hm.
  destruct (@registry_match_number _ _ _ _ Hreg Hm)
    as [n [pre [post [Hg [Hn Hs]]]]].
  unfold kept. rewrite Hg, (py_float_unsigned _ (number_alphabet Hn)).
  destruct (parse_decimal (remove_commas n)) as [[mantissa e]|] eqn:Hp;
    [|reflexivity].
  apply parse_decimal_has_digit in Hp.
  rewrite <- lower_keeps_digits, Hs in Hnone.
  apply existsb_sub in Hnone.
  assert (Hsub : existsb is_digit (remove_commas n) = true ->
                 existsb is_digit n = true).
  { rewrite !existsb_exists. intros [c [Hc Hd]].
    unfold remove_commas in Hc. apply filter_In in Hc as [Hc _]. eauto. }
  rewrite (Hsub Hp) in Hnone. discriminate.
Qed.

Lemma no_digit_no_metric_witness :
  _extract_financial_metrics (str "Revenue: , million; EPS: n/a") = Ok [].
Proof.
  apply no_digit_no_metric. vm_compute. reflexivity.
Defined.

(** ** The table detector: closing, content and number of tables *)

Lemma split_lines_snoc_newline (text : pystr) :
  split_lines (text ++ [NL]) = split_lines text ++ [[]].
Proof.
  induction text as [|c s IH]; [reflexivity|].
  cbn [app split_lines]. rewrite IH.
  destruct (chr_eqb c NL); [reflexivity|].
  destruct (split_lines s) as [|l ls] eqn:Hs;
    [now destruct (split_lines_nonempty s) | reflexivity].
Qed.

Lemma empty_line_not_row : is_table_row [] = false.
Proof. reflexivity. Qed.

(** A line feed at the end of the text closes the run that was open there:
    the tables are those of the text without it, then the open run if it
    holds more than two lines.  So a run of rows that ends the text is
    emitted once a line feed follows it. *)
Theorem trailing_newline_closes (text : pystr) (run : list pystr) :
  _extract_tables_from_text (text ++ [NL])
  = _extract_tables_from_text text ++ closing (open_run_of text)
  /\ (Forall (fun l => forallb dot l = true) run ->
      forallb is_table_row run = true ->
      _extract_tables_from_text (join_lines run ++ [NL])
      = closing (map strip run)).
Proof.
  assert (Hmain : forall t,
             _extract_tables_from_text (t ++ [NL])
             = _extract_tables_from_text t ++ closing (open_run_of t)).
  { intro t. unfold _extract_tables_from_text, open_run_of.
    rewrite split_lines_snoc_newline, fold_left_app. cbn [fold_left].
    destruct (fold_left table_step (split_lines t) ([], [])) as [tables cur].
    now rewrite (@table_step_stop _ _ _ empty_line_not_row). }
  split; [apply Hmain|].
  intros Hall Hrun. rewrite Hmain, (open_run Hall Hrun). cbn [app].
  unfold open_run_of. destruct run as [|l ls]; [reflexivity|].
  rewrite split_join; [|discriminate | exact Hall].
  now rewrite (@fold_run _ Hrun).
Qed.

Lemma trailing_newline_closes_witness :
  let run := [str " Q1 10 20"; str " Q2 11 21"; str " Q3 12 22"] in
  _extract_tables_from_text (join_lines run) = []
  /\ _extract_tables_from_text (join_lines run ++ [NL])
     = [extracted_table [str "Q1 10 20"; str "Q2 11 21"; str "Q3 12 22"]
                        (decimal 6 1)].
Proof.
  intro run. split; [vm_compute; reflexivity|].
  assert (Hall : Forall (fun l => forallb dot l = true) run)
    by (repeat constructor).
  exact (proj2 (trailing_newline_closes [] run) Hall eq_refl).
Defined.

(** The loop of the detector keeps: every table has more than two rows and
    confidence 0.6, and every row, in a table or in the open run, is the
    trimmed text of a row line among [all]. *)
Lemma table_loop_invariant (all : list pystr) :
  let row_of := fun r => exists l,
                    In l all /\ is_table_row l = true /\ r = strip l in
  let good := fun t => exists rows,
                  t = extracted_table rows (decimal 6 1)
                  /\ 2 < length rows /\ Forall row_of rows in
  forall lines, incl lines all ->
  forall tables current_table,
    Forall good tables -> Forall row_of current_table ->
    Forall good (fst (fold_left table_step lines (tables, current_table)))
    /\ Forall row_of (snd (fold_left table_step lines (tables, current_table))).
Proof.
  intros row_of good.
  induction lines as [|l lines IH]; intros Hincl tables cur Ht Hc;
    cbn [fold_left]; [now split|].
  assert (Hl : In l all) by (apply Hincl; now left).
  assert (Hincl' : incl lines all) by (intros x Hx; apply Hincl; now right).
  destruct (is_table_row l) eqn:Hrow.
  - rewrite (@table_step_row _ _ _ Hrow). apply (IH Hincl'); [exact Ht|].
    apply Forall_app. split; [exact Hc|]. constructor; [|constructor].
    exists l. auto.
  - rewrite (@table_step_stop _ _ _ Hrow). apply (IH Hincl'); [|constructor].
    apply Forall_app. split; [exact Ht|].
    destruct (Nat.ltb_spec 2 (length cur)); constructor; [|constructor].
    exists cur. auto.
Qed.

(** Every table the detector emits has confidence 0.6 and more than two
    rows, and each row is the trimmed text of a line of the input that
    passes the row test. *)
Theorem tables_hold_trimmed_rows (text : pystr) (t : table) :
  In t (_extract_tables_from_text text) ->
  exists rows,
    t = extracted_table rows (decimal 6 1)
    /\ 2 < length rows
    /\ Forall (fun r => exists l, In l (split_lines text)
                                  /\ is_table_row l = true /\ r = strip l)
              rows.
Proof.
  intro Hin. unfold _extract_tables_from_text in Hin.
  destruct (@table_loop_invariant (split_lines text) (split_lines text)
              (incl_refl _) [] [] (Forall_nil _) (Forall_nil _)) as [H _].
  rewrite Forall_forall in H. exact (H t Hin).
Qed.

Lemma tables_hold_trimmed_rows_witness :
  let nl := [NL] in
  let text := str " a 1 22" ++ nl ++ str " b 3 44" ++ nl ++ str " c 5 66"
              ++ nl ++ str "end" in
  exists rows,
    _extract_tables_from_text text = [extracted_table rows (decimal 6 1)]
    /\ 2 < length rows.
Proof.
  intros nl text.
  assert (H : _extract_tables_from_text text
              = [extracted_table [str "a 1 22"; str "b 3 44"; str "c 5 66"]
                                 (decimal 6 1)]) by (vm_compute; reflexivity).
  assert (Hin : In (extracted_table [str "a 1 22"; str "b 3 44"; str "c 5 66"]
                                    (decimal 6 1))
                   (_extract_tables_from_text text))
    by (rewrite H; now left).
  destruct (tables_hold_trimmed_rows text _ Hin) as [rows [Heq [Hlen _]]].
  exists rows. split; [|exact Hlen]. rewrite H. now rewrite Heq.
Defined.

Lemma table_loop_count (lines : list pystr) :
  forall tables current_table,
    4 * length (fst (fold_left table_step lines (tables, current_table)))
    + length (snd (fold_left table_step lines (tables, current_table)))
    <= 4 * length tables + length current_table + length lines.
Proof.
  induction lines as [|l lines IH]; intros tables cur; cbn [fold_left length].
  - cbn [fst snd]. lia.
  - destruct (is_table_row l) eqn:Hrow.
    + rewrite (@table_step_row _ _ _ Hrow).
      specialize (IH tables (cur ++ [strip l])).
      rewrite length_app in IH. cbn [length] in IH. lia.
    + rewrite (@table_step_stop _ _ _ Hrow).
      specialize (IH (tables ++ (if 2 <? length cur
                                 then [extracted_table cur (decimal 6 1)]
                                 else [])) []).
      rewrite length_app in IH.
      destruct (Nat.ltb_spec 2 (length cur)); cbn [length] in IH; lia.
Qed.

(** A table takes at least four lines of the text, three rows and the line
    that closes them: four times the number of tables is at most the number
    of lines.  A text of three lines or fewer gives no table. *)
Theorem table_count_bound (text : pystr) :
  4 * length (_extract_tables_from_text text) <= length (split_lines text).
Proof.
  unfold _extract_tables_from_text.
  pose proof (table_loop_count (split_lines text) [] []) as H.
  cbn [length] in H. lia.
Qed.

(** ** The three paths *)

Section PathProperties.

Variable Page : Type.
Variable extract_text : Page -> pystr.

Variable DataFrame : Type.
Variable to_string : DataFrame -> pystr.
Variable to_dict_records : DataFrame -> list record.
Variable columns_tolist : DataFrame -> list pystr.

Lemma pdf_text_eq (pages : list Page) :
  forall text,
    fold_left (fun text page => text ++ extract_text page ++ [NL]) pages text
    = text ++ flat_map (fun page => extract_text page ++ [NL]) pages.
Proof.
  induction pages as [|page pages IH]; intro text; cbn [fold_left flat_map].
  - now rewrite app_nil_r.
  - rewrite IH. now rewrite <- !app_assoc.
Qed.

(** On the PDF path the text is the pages' texts, a line feed after each,
    and detector and extractor both read that text.  Because of the line
    feed after the last page, the run of rows open at the end of the last
    page is closed: unlike the detector alone, the path emits it. *)
Theorem pdf_path_closes_last_run (pages : list Page) (page : Page) :
  let body := flat_map (fun p => extract_text p ++ [NL]) pages
              ++ extract_text page in
  exists r,
    parse_pdf extract_text (pages ++ [page]) = Ok r
    /\ Parsed.extracted_text r = body ++ [NL]
    /\ Parsed.tables r
       = _extract_tables_from_text body ++ closing (open_run_of body)
    /\ _extract_financial_metrics (body ++ [NL]) = Ok (Parsed.metrics r).
Proof.
  intro body. unfold parse_pdf. rewrite pdf_text_eq. cbn [app].
  rewrite flat_map_app. cbn [flat_map]. rewrite app_nil_r, app_assoc.
  fold body. rewrite extract_eq. cbn [bind or_http_500].
  eexists. split; [reflexivity|]. cbn [Parsed.extracted_text Parsed.tables
    Parsed.metrics].
  split; [reflexivity | split; [|reflexivity]].
  apply (proj1 (trailing_newline_closes body [])).
Qed.

(** The CSV path is the sheet path on the single sheet [csv_data], up to
    the text: same table, same metrics, same confidence; the sheet path
    wraps the rendering in a ["Sheet: csv_data"] line and two line feeds,
    the CSV path returns it bare. *)
Theorem csv_path_is_single_sheet (df : DataFrame) :
  exists rc re,
    parse_csv to_string to_dict_records columns_tolist df = Ok rc
    /\ parse_excel to_string to_dict_records columns_tolist
                   [(str "csv_data", df)] = Ok re
    /\ Parsed.tables rc = Parsed.tables re
    /\ Parsed.metrics rc = Parsed.metrics re
    /\ Parsed.confidence rc = Parsed.confidence re
    /\ Parsed.extracted_text rc = to_string df
    /\ Parsed.extracted_text re
       = str "Sheet: csv_data" ++ [NL] ++ to_string df ++ [NL; NL].
Proof.
  unfold parse_csv, parse_excel. rewrite excel_loop_eq, extract_eq.
  cbn [bind or_http_500 flat_map map fst snd app].
  do 2 eexists. split; [reflexivity | split; [reflexivity|]].
  cbn [Parsed.tables Parsed.metrics Parsed.confidence Parsed.extracted_text].
  rewrite !app_nil_r. repeat split; reflexivity.
Qed.

(** The sheet path works sheet by sheet: the result on two workbooks put
    one after the other is the results on each put one after the other,
    text, tables and metrics alike. *)
Theorem sheet_path_app (sheets1 sheets2 : list (pystr * DataFrame)) :
  exists r1 r2 r,
    parse_excel to_string to_dict_records columns_tolist sheets1 = Ok r1
    /\ parse_excel to_string to_dict_records columns_tolist sheets2 = Ok r2
    /\ parse_excel to_string to_dict_records columns_tolist
                   (sheets1 ++ sheets2) = Ok r
    /\ Parsed.extracted_text r
       = Parsed.extracted_text r1 ++ Parsed.extracted_text r2
    /\ Parsed.tables r = Parsed.tables r1 ++ Parsed.tables r2
    /\ Parsed.metrics r = Parsed.metrics r1 ++ Parsed.metrics r2.
Proof.
  unfold parse_excel. rewrite !excel_loop_eq.
  cbn [bind or_http_500 app].
  do 3 eexists. repeat (split; [reflexivity|]).
  cbn [Parsed.tables Parsed.metrics Parsed.extracted_text].
  now rewrite flat_map_app, map_app, flat_map_app.
Qed.

End PathProperties.

(** ** The service layer *)

Lemma str_eqb_eq (a b : pystr) : str_eqb a b = true <-> a = b.
Proof.
  revert b. induction a as [|x a IH]; intros [|y b]; cbn [str_eqb];
    try (split; [discriminate | discriminate]); [now split|].
  rewrite andb_true_iff, chr_eqb_eq, IH. split.
  - now intros [-> ->].
  - intros [= -> ->]. now split.
Qed.

Section ServiceProperties.

Variable Page : Type.
Variable extract_text : Page -> pystr.
Variable DataFrame : Type.
Variable to_string : DataFrame -> pystr.
Variable to_dict_records : DataFrame -> list record.
Variable columns_tolist : DataFrame -> list pystr.
Variable FS : Type.
Variable path_exists : FS -> pystr -> bool.
Variable read_pdf : FS -> pystr -> result (list Page).
Variable read_excel : FS -> pystr -> result (list (pystr * DataFrame)).
Variable read_csv : FS -> pystr -> result DataFrame.
Variable exn_str : exn -> pystr.
Variable UploadFile : Type.
Variable filename : UploadFile -> pystr.
Variable save_upload : UploadFile -> pystr -> FS -> result unit * FS.
Variable unlink : pystr -> FS -> result unit * FS.
Variable path_suffix : pystr -> pystr.

(** The functions of the source at the readers and file system above. *)
Local Abbreviation pdf_file := (parse_pdf_file extract_text read_pdf).
Local Abbreviation excel_file :=
  (parse_excel_file to_string to_dict_records columns_tolist read_excel).
Local Abbreviation csv_file :=
  (parse_csv_file to_string to_dict_records columns_tolist read_csv).
Local Abbreviation document_try :=
  (parse_document_try extract_text to_string to_dict_records columns_tolist
                      path_exists read_pdf read_excel read_csv).
Local Abbreviation document :=
  (parse_document extract_text to_string to_dict_records columns_tolist
                  path_exists read_pdf read_excel read_csv exn_str).
Local Abbreviation upload :=
  (upload_and_parse extract_text to_string to_dict_records columns_tolist
                    path_exists read_pdf read_excel read_csv exn_str
                    filename save_upload unlink path_suffix).

Lemma parse_pdf_ok (pages : list Page) :
  exists r, parse_pdf extract_text pages = Ok r
            /\ Parsed.confidence r = decimal 8 1.
Proof.
  unfold parse_pdf. rewrite extract_eq. cbn [bind or_http_500].
  eexists. split; reflexivity.
Qed.

Lemma parse_excel_ok (excel_data : list (pystr * DataFrame)) :
  exists r, parse_excel to_string to_dict_records columns_tolist excel_data
            = Ok r
            /\ Parsed.confidence r = decimal 9 1.
Proof.
  unfold parse_excel. rewrite excel_loop_eq. cbn [bind or_http_500].
  eexists. split; reflexivity.
Qed.

Lemma parse_csv_ok (df : DataFrame) :
  exists r, parse_csv to_string to_dict_records columns_tolist df = Ok r
            /\ Parsed.confidence r = decimal 9 1.
Proof.
  unfold parse_csv. rewrite extract_eq. cbn [bind or_http_500].
  eexists. split; reflexivity.
Qed.

Lemma pdf_file_outcome (fs : FS) (file_path : pystr) :
  (exists r, pdf_file fs file_path = Ok r
             /\ Parsed.confidence r = decimal 8 1)
  \/ pdf_file fs file_path = Raise (HTTPException 500).
Proof.
  unfold parse_pdf_file. destruct (read_pdf fs file_path) as [pages|e];
    [left; apply parse_pdf_ok | now right].
Qed.

Lemma excel_file_outcome (fs : FS) (file_path : pystr) :
  (exists r, excel_file fs file_path = Ok r
             /\ Parsed.confidence r = decimal 9 1)
  \/ excel_file fs file_path = Raise (HTTPException 500).
Proof.
  unfold parse_excel_file. destruct (read_excel fs file_path) as [sheets|e];
    [left; apply parse_excel_ok | now right].
Qed.

Lemma csv_file_outcome (fs : FS) (file_path : pystr) :
  (exists r, csv_file fs file_path = Ok r
             /\ Parsed.confidence r = decimal 9 1)
  \/ csv_file fs file_path = Raise (HTTPException 500).
Proof.
  unfold parse_csv_file. destruct (read_csv fs file_path) as [df|e];
    [left; apply parse_csv_ok | now right].
Qed.

(** The four ways through the [try] block of [parse_document]. *)
Lemma document_try_cases (fs : FS) (request : ParseRequest.t) :
  let present := path_exists fs (ParseRequest.file_path request) in
  let known := supported_type (lower (ParseRequest.file_type request)) in
  (present = false /\ document_try fs request = Raise (HTTPException 404))
  \/ (present = true /\ known = false
      /\ document_try fs request = Raise (HTTPException 400))
  \/ (present = true /\ known = true
      /\ document_try fs request = Raise (HTTPException 500))
  \/ (present = true /\ known = true
      /\ exists r,
           document_try fs request
           = Ok (ParseResponse.make (ParseRequest.document_id request)
                   (Parsed.extracted_text r) (Parsed.tables r)
                   (Parsed.metrics r) (Parsed.confidence r) true None)).
Proof.
  intros present known. subst present known.
  unfold parse_document_try, supported_type. cbn [existsb].
  destruct (path_exists fs (ParseRequest.file_path request));
    [|left; now split].
  right. cbn [negb].
  set (ft := lower (ParseRequest.file_type request)).
  assert (Hout : forall out : result Parsed.t,
             (exists r, out = Ok r /\ True) \/ out = Raise (HTTPException 500) ->
             bind out (fun result =>
                         Ok (ParseResponse.make
                               (ParseRequest.document_id request)
                               (Parsed.extracted_text result)
                               (Parsed.tables result) (Parsed.metrics result)
                               (Parsed.confidence result) true None))
             = Raise (HTTPException 500)
             \/ exists r,
                 bind out (fun result =>
                             Ok (ParseResponse.make
                                   (ParseRequest.document_id request)
                                   (Parsed.extracted_text result)
                                   (Parsed.tables result)
                                   (Parsed.metrics result)
                                   (Parsed.confidence result) true None))
                 = Ok (ParseResponse.make (ParseRequest.document_id request)
                         (Parsed.extracted_text r) (Parsed.tables r)
                         (Parsed.metrics r) (Parsed.confidence r) true None)).
  { intros out [[r [-> _]] | ->]; [right; now exists r | now left]. }
  assert (Hweak : forall (out : result Parsed.t) c,
             (exists r, out = Ok r /\ Parsed.confidence r = c)
             \/ out = Raise (HTTPException 500) ->
             (exists r, out = Ok r /\ True)
             \/ out = Raise (HTTPException 500)).
  { intros out c [[r [-> _]] | ->]; [left; now exists r | now right]. }
  destruct (str_eqb ft (str "pdf")).
  - right. cbn [orb].
    destruct (Hout _ (Hweak _ _ (pdf_file_outcome fs (ParseRequest.file_path request)))) as [H | H];
      [left | right]; auto.
  - destruct (str_eqb ft (str "excel")).
    { right. cbn [orb].
      destruct (Hout _ (Hweak _ _ (excel_file_outcome fs (ParseRequest.file_path request)))) as [H | H];
        [left | right]; auto. }
    destruct (str_eqb ft (str "xlsx")).
    { right. cbn [orb].
      destruct (Hout _ (Hweak _ _ (excel_file_outcome fs (ParseRequest.file_path request)))) as [H | H];
        [left | right]; auto. }
    destruct (str_eqb ft (str "xls")).
    { right. cbn [orb].
      destruct (Hout _ (Hweak _ _ (excel_file_outcome fs (ParseRequest.file_path request)))) as [H | H];
        [left | right]; auto. }
    cbn [orb]. destruct (str_eqb ft (str "csv")).
    + right. cbn [orb].
      destruct (Hout _ (Hweak _ _ (csv_file_outcome fs (ParseRequest.file_path request)))) as [H | H];
        [left | right]; auto.
    + left. auto.
Qed.

Lemma document_cases (fs : FS) (request : ParseRequest.t) :
  let present := path_exists fs (ParseRequest.file_path request) in
  let known := supported_type (lower (ParseRequest.file_type request)) in
  (present = false /\ document fs request = Raise (HTTPException 404))
  \/ (present = true /\ known = false
      /\ document fs request = Raise (HTTPException 400))
  \/ (present = true /\ known = true
      /\ document fs request = Raise (HTTPException 500))
  \/ (present = true /\ known = true
      /\ exists r,
           document fs request
           = Ok (ParseResponse.make (ParseRequest.document_id request)
                   (Parsed.extracted_text r) (Parsed.tables r)
                   (Parsed.metrics r) (Parsed.confidence r) true None)).
Proof.
  intros present known. subst present known. unfold parse_document.
  destruct (document_try_cases fs request)
    as [[Hp H] | [[Hp [Hk H]] | [[Hp [Hk H]] | [Hp [Hk [r H]]]]]];
    rewrite H; eauto 10.
Qed.

(** [parse_document] is [parse_document_with] at the three methods of the
    parser. *)
Lemma parse_document_with_methods (fs : FS) (request : ParseRequest.t) :
  document fs request
  = parse_document_with path_exists exn_str pdf_file excel_file csv_file
                        fs request.
Proof. reflexivity. Qed.

(** Whatever the [parse_*] methods do, [parse_document] answers with
    [success=False] only when the file exists, the type is one it knows and
    the method it called for that type let out an exception that is not an
    [HTTPException]; the response then has the request's [document_id],
    empty text, tables and metrics, confidence 0.0 and [error = str(e)]. *)
Theorem document_failure_response
        (pdf excel csv : FS -> pystr -> result Parsed.t)
        (fs : FS) (request : ParseRequest.t) (response : ParseResponse.t) :
  parse_document_with path_exists exn_str pdf excel csv fs request
  = Ok response ->
  ParseResponse.success response = false ->
  let ft := lower (ParseRequest.file_type request) in
  let path := ParseRequest.file_path request in
  path_exists fs path = true
  /\ supported_type ft = true
  /\ exists e,
       ((ft = str "pdf" /\ pdf fs path = Raise e)
        \/ (In ft [str "excel"; str "xlsx"; str "xls"]
            /\ excel fs path = Raise e)
        \/ (ft = str "csv" /\ csv fs path = Raise e))
       /\ (forall status_code, e <> HTTPException status_code)
       /\ response
          = ParseResponse.make (ParseRequest.document_id request) [] [] []
              (decimal 0 0) false (Some (exn_str e)).
Proof.
  intros Hok Hfalse ft path. subst ft path.
  unfold parse_document_with, supported_type in *. cbn [existsb] in *.
  destruct (path_exists fs (ParseRequest.file_path request));
    [|discriminate Hok].
  cbn [negb] in Hok. split; [reflexivity|].
  set (ft := lower (ParseRequest.file_type request)) in *.
  assert (Hout : forall out : result Parsed.t,
             match bind out (fun result =>
                      Ok (ParseResponse.make
                            (ParseRequest.document_id request)
                            (Parsed.extracted_text result)
                            (Parsed.tables result) (Parsed.metrics result)
                            (Parsed.confidence result) true None))
             with
             | Ok r => Ok r
             | Raise (HTTPException status_code) =>
                 Raise (HTTPException status_code)
             | Raise e =>
                 Ok (ParseResponse.make (ParseRequest.document_id request)
                       [] [] [] (decimal 0 0) false (Some (exn_str e)))
             end = Ok response ->
             exists e, out = Raise e
                       /\ (forall status_code, e <> HTTPException status_code)
                       /\ response
                          = ParseResponse.make
                              (ParseRequest.document_id request) [] [] []
                              (decimal 0 0) false (Some (exn_str e))).
  { intros [r|e] H; cbn [bind] in H.
    - injection H as <-. discriminate Hfalse.
    - exists e. destruct e; try discriminate H;
        (split; [reflexivity
                | split; [intros c; discriminate | now injection H]]). }
  destruct (str_eqb ft (str "pdf")) eqn:Epdf.
  { split; [reflexivity|]. apply Hout in Hok as [e [He [Hn Hr]]].
    exists e. apply str_eqb_eq in Epdf. auto 6. }
  destruct (str_eqb ft (str "excel")) eqn:E1.
  { split; [reflexivity|]. apply Hout in Hok as [e [He [Hn Hr]]].
    exists e. apply str_eqb_eq in E1. rewrite E1. cbn [In]. auto 8. }
  destruct (str_eqb ft (str "xlsx")) eqn:E2.
  { split; [reflexivity|]. apply Hout in Hok as [e [He [Hn Hr]]].
    exists e. apply str_eqb_eq in E2. rewrite E2. cbn [In]. auto 8. }
  destruct (str_eqb ft (str "xls")) eqn:E3.
  { split; [reflexivity|]. apply Hout in Hok as [e [He [Hn Hr]]].
    exists e. apply str_eqb_eq in E3. rewrite E3. cbn [In]. auto 8. }
  cbn [orb] in Hok |- *.
  destruct (str_eqb ft (str "csv")) eqn:E4.
  { split; [reflexivity|]. apply Hout in Hok as [e [He [Hn Hr]]].
    exists e. apply str_eqb_eq in E4. auto 8. }
  cbn [bind] in Hok. discriminate Hok.
Qed.

(** The statuses of [parse_document]: 404 exactly when the file does not
    exist, whatever the type; 400 exactly when it exists and the
    lower-cased type is none of [pdf], [excel], [xlsx], [xls], [csv]; and
    no exception other than these and 500. *)
Theorem document_status (fs : FS) (request : ParseRequest.t) :
  (document fs request = Raise (HTTPException 404)
   <-> path_exists fs (ParseRequest.file_path request) = false)
  /\ (document fs request = Raise (HTTPException 400)
      <-> path_exists fs (ParseRequest.file_path request) = true
          /\ supported_type (lower (ParseRequest.file_type request)) = false)
  /\ (forall e, document fs request = Raise e ->
                e = HTTPException 404 \/ e = HTTPException 400
                \/ e = HTTPException 500).
Proof.
  destruct (document_cases fs request)
    as [[Hp H] | [[Hp [Hk H]] | [[Hp [Hk H]] | [Hp [Hk [r H]]]]]];
    rewrite H, Hp; try rewrite Hk;
    (split; [split; [intro E; try discriminate E; try reflexivity
                    | intro E; try discriminate E; try reflexivity]
            | split; [split; [intro E; try discriminate E; auto
                             | intros [E1 E2]; try discriminate E1;
                               try discriminate E2; reflexivity]
                     | intros e E; try discriminate E;
                       injection E as <-; auto]]).
Qed.

(** A file the reader can read gives a success response on each path, with
    the text, tables and metrics of the path and its confidence: 0.8 for
    [pdf], 0.9 for [excel], [xlsx], [xls] and for [csv].  The type is
    compared in lower case. *)
Theorem document_readable (fs : FS) (request : ParseRequest.t) :
  path_exists fs (ParseRequest.file_path request) = true ->
  let ft := lower (ParseRequest.file_type request) in
  let path := ParseRequest.file_path request in
  let answer := fun r : Parsed.t =>
    Ok (ParseResponse.make (ParseRequest.document_id request)
          (Parsed.extracted_text r) (Parsed.tables r) (Parsed.metrics r)
          (Parsed.confidence r) true None) in
  (ft = str "pdf" ->
   forall pages, read_pdf fs path = Ok pages ->
   exists r, parse_pdf extract_text pages = Ok r
             /\ Parsed.confidence r = decimal 8 1
             /\ document fs request = answer r)
  /\ (In ft [str "excel"; str "xlsx"; str "xls"] ->
      forall sheets, read_excel fs path = Ok sheets ->
      exists r, parse_excel to_string to_dict_records columns_tolist sheets
                = Ok r
                /\ Parsed.confidence r = decimal 9 1
                /\ document fs request = answer r)
  /\ (ft = str "csv" ->
      forall df, read_csv fs path = Ok df ->
      exists r, parse_csv to_string to_dict_records columns_tolist df = Ok r
                /\ Parsed.confidence r = decimal 9 1
                /\ document fs request = answer r).
Proof.
  intros Hp ft path answer. subst ft path answer.
  unfold parse_document, parse_document_try. rewrite Hp. cbn [negb].
  split; [|split].
  - intros -> pages Hread. cbn [str_eqb].
    unfold parse_pdf_file. rewrite Hread.
    destruct (parse_pdf_ok pages) as [r [Hr Hc]]. exists r.
    rewrite Hr. cbn [bind]. auto.
  - intros Hin sheets Hread.
    destruct (parse_excel_ok sheets) as [r [Hr Hc]]. exists r.
    split; [exact Hr | split; [exact Hc|]].
    unfold parse_excel_file.
    destruct Hin as [<- | [<- | [<- | []]]]; cbn; rewrite Hread, Hr;
      reflexivity.
  - intros -> df Hread.
    destruct (parse_csv_ok df) as [r [Hr Hc]]. exists r.
    split; [exact Hr | split; [exact Hc|]].
    unfold parse_csv_file. cbn. rewrite Hread, Hr. reflexivity.
Qed.

(** Every file type of [file_type_map] is one [parse_document] knows. *)
Lemma file_type_map_supported (file_extension : pystr) :
  let file_type :=
    dict_get file_type_map file_extension (str "unknown") in
  file_type = str "unknown" \/ supported_type (lower file_type) = true.
Proof.
  cbn [file_type_map dict_get].
  repeat match goal with
         | |- context [if ?b then _ else _] => destruct b
         end; (now left) || (right; reflexivity).
Qed.

(** The file types [file_type_map] can give. *)
Lemma file_type_map_values (file_extension : pystr) :
  let file_type :=
    dict_get file_type_map file_extension (str "unknown") in
  file_type = str "pdf" \/ file_type = str "excel" \/ file_type = str "csv"
  \/ file_type = str "unknown".
Proof.
  cbn [file_type_map dict_get].
  repeat match goal with
         | |- context [if ?b then _ else _] => destruct b
         end; auto.
Qed.

(** The upload path end to end.  [upload_and_parse] saves the upload at
    [/tmp/<filename>], maps the lower-cased extension through
    [file_type_map] and hands [parse_document] the request
    ([upload_<filename>], that path, that type).  Every type of the map is
    one [parse_document] dispatches on: when the saved file exists, the
    extension is in the map, the reader for the type reads it and
    [os.unlink] succeeds, [upload_and_parse] returns the success response of
    [parse_document] on that request, with document id [upload_<filename>],
    and leaves the file system as [os.unlink] left it. *)
Theorem upload_dispatch_coherent (file : UploadFile) (fs fs1 fs2 : FS) :
  let temp_path := temp_path_of filename file in
  let file_type :=
    dict_get file_type_map (lower (path_suffix (filename file)))
             (str "unknown") in
  let request :=
    ParseRequest.make (str "upload_" ++ filename file) temp_path file_type in
  save_upload file temp_path fs = (Ok tt, fs1) ->
  path_exists fs1 temp_path = true ->
  file_type <> str "unknown" ->
  (file_type = str "pdf" -> exists pages, read_pdf fs1 temp_path = Ok pages) ->
  (file_type = str "excel" ->
   exists sheets, read_excel fs1 temp_path = Ok sheets) ->
  (file_type = str "csv" -> exists df, read_csv fs1 temp_path = Ok df) ->
  unlink temp_path fs1 = (Ok tt, fs2) ->
  exists response,
    upload file fs = (Ok response, fs2)
    /\ document fs1 request = Ok response
    /\ ParseResponse.document_id response = str "upload_" ++ filename file
    /\ ParseResponse.success response = true
    /\ ParseResponse.error response = None.
Proof.
  intros temp_path file_type request Hsave Hp Hknown Hpdf Hexcel Hcsv Hunlink.
  assert (Hdoc : exists r,
             document fs1 request
             = Ok (ParseResponse.make (str "upload_" ++ filename file)
                     (Parsed.extracted_text r) (Parsed.tables r)
                     (Parsed.metrics r) (Parsed.confidence r) true None)).
  { unfold parse_document, parse_document_try. subst request.
    cbn [ParseRequest.file_path ParseRequest.file_type
         ParseRequest.document_id].
    rewrite Hp. cbn [negb].
    destruct (file_type_map_values (lower (path_suffix (filename file))))
      as [Hft | [Hft | [Hft | Hft]]]; fold file_type in Hft;
      [| | |contradiction].
    - destruct (Hpdf Hft) as [pages Hread]. rewrite Hft.
      replace (str_eqb (lower (str "pdf")) (str "pdf")) with true
        by reflexivity.
      unfold parse_pdf_file. rewrite Hread.
      destruct (parse_pdf_ok pages) as [r [Hr _]]. exists r. now rewrite Hr.
    - destruct (Hexcel Hft) as [sheets Hread]. rewrite Hft.
      replace (str_eqb (lower (str "excel")) (str "pdf")) with false
        by reflexivity.
      replace (existsb (str_eqb (lower (str "excel")))
                       [str "excel"; str "xlsx"; str "xls"]) with true
        by reflexivity.
      unfold parse_excel_file. rewrite Hread.
      destruct (parse_excel_ok sheets) as [r [Hr _]]. exists r.
      now rewrite Hr.
    - destruct (Hcsv Hft) as [df Hread]. rewrite Hft.
      replace (str_eqb (lower (str "csv")) (str "pdf")) with false
        by reflexivity.
      replace (existsb (str_eqb (lower (str "csv")))
                       [str "excel"; str "xlsx"; str "xls"]) with false
        by reflexivity.
      replace (str_eqb (lower (str "csv")) (str "csv")) with true
        by reflexivity.
      unfold parse_csv_file. rewrite Hread.
      destruct (parse_csv_ok df) as [r [Hr _]]. exists r. now rewrite Hr. }
  destruct Hdoc as [r Hdoc]. eexists.
  split; [|split; [exact Hdoc | repeat split]].
  unfold upload_and_parse, upload_try. fold temp_path. rewrite Hsave.
  fold file_type.
  assert (Hneq : str_eqb file_type (str "unknown") = false).
  { destruct (str_eqb file_type (str "unknown")) eqn:E; [|reflexivity].
    apply str_eqb_eq in E. contradiction. }
  rewrite Hneq. fold request. rewrite Hdoc, Hunlink. reflexivity.
Qed.

(** [upload_and_parse] turns every failure into [HTTPException] 500, its
    own 400 for an unknown extension and the 404 and 400 of
    [parse_document] included: the only other exception that can leave it
    is one [os.unlink] raises in the handler, on a file that exists. *)
Theorem upload_raises_500 (file : UploadFile) (fs : FS) (e : exn) :
  fst (upload file fs) = Raise e ->
  e = HTTPException 500
  \/ exists fs1 fs2,
       path_exists fs1 (temp_path_of filename file) = true
       /\ unlink (temp_path_of filename file) fs1 = (Raise e, fs2).
Proof.
  unfold upload_and_parse.
  destruct (upload_try _ _ _ _ _ _ _ _ _ _ _ _ _ file fs) as [[response|e0] fs1].
  - discriminate.
  - destruct (path_exists fs1 (temp_path_of filename file)) eqn:Hp.
    + destruct (unlink (temp_path_of filename file) fs1) as [[u|e1] fs2] eqn:Hu;
        cbn [fst]; intros [= <-]; [now left|].
      right. exists fs1, fs2. auto.
    + cbn [fst]. intros [= <-]. now left.
Qed.

(** An upload whose extension is not in [file_type_map] is answered with
    [HTTPException] 500, not with the 400 the code raises for it, whether
    saving the upload succeeded or not: the handler catches the function's
    own [HTTPException].  The one other outcome is an exception of
    [os.unlink] in the handler, on a file that exists. *)
Theorem upload_unknown_extension (file : UploadFile) (fs : FS) :
  dict_get file_type_map (lower (path_suffix (filename file)))
           (str "unknown") = str "unknown" ->
  fst (upload file fs) = Raise (HTTPException 500)
  \/ exists e fs1 fs2,
       path_exists fs1 (temp_path_of filename file) = true
       /\ unlink (temp_path_of filename file) fs1 = (Raise e, fs2)
       /\ upload file fs = (Raise e, fs2).
Proof.
  intro Hunknown.
  assert (Hhandler : forall fs1,
             let out :=
               if path_exists fs1 (temp_path_of filename file)
               then match unlink (temp_path_of filename file) fs1 with
                    | (Raise e, fs'') => (@Raise ParseResponse.t e, fs'')
                    | (Ok _, fs'') => (Raise (HTTPException 500), fs'')
                    end
               else (Raise (HTTPException 500), fs1) in
             fst out = Raise (HTTPException 500)
             \/ exists e fs1' fs2,
                  path_exists fs1' (temp_path_of filename file) = true
                  /\ unlink (temp_path_of filename file) fs1' = (Raise e, fs2)
                  /\ out = (Raise e, fs2)).
  { intros fs1 out. subst out.
    destruct (path_exists fs1 (temp_path_of filename file)) eqn:Hp.
    - destruct (unlink (temp_path_of filename file) fs1)
        as [[u|e1] fs2] eqn:Hu.
      + now left.
      + right. exists e1, fs1, fs2. auto.
    - now left. }
  unfold upload_and_parse, upload_try.
  destruct (save_upload file (temp_path_of filename file) fs)
    as [[[]|e0] fs1]; [|exact (Hhandler fs1)].
  rewrite Hunknown.
  replace (str_eqb (str "unknown") (str "unknown")) with true
    by reflexivity.
  exact (Hhandler fs1).
Qed.

(** The temporary file does not outlive the call: if a successful
    [os.unlink] leaves no file at its path, then after [upload_and_parse]
    the file at [/tmp/<filename>] is gone, on success and on failure,
    unless [os.unlink] itself raised. *)
Theorem upload_removes_temp_file (file : UploadFile) (fs : FS) :
  (forall path fs0 fs1,
      unlink path fs0 = (Ok tt, fs1) -> path_exists fs1 path = false) ->
  path_exists (snd (upload file fs)) (temp_path_of filename file) = false
  \/ exists e fs1 fs2,
       unlink (temp_path_of filename file) fs1 = (Raise e, fs2)
       /\ upload file fs = (Raise e, fs2).
Proof.
  intro Hlaw.
  assert (Hhandler : forall fs1,
             let out :=
               if path_exists fs1 (temp_path_of filename file)
               then match unlink (temp_path_of filename file) fs1 with
                    | (Raise e, fs'') => (@Raise ParseResponse.t e, fs'')
                    | (Ok _, fs'') => (Raise (HTTPException 500), fs'')
                    end
               else (Raise (HTTPException 500), fs1) in
             path_exists (snd out) (temp_path_of filename file) = false
             \/ exists e fs1' fs2,
                  unlink (temp_path_of filename file) fs1' = (Raise e, fs2)
                  /\ out = (Raise e, fs2)).
  { intros fs1 out. subst out.
    destruct (path_exists fs1 (temp_path_of filename file)) eqn:Hp.
    - destruct (unlink (temp_path_of filename file) fs1) as [[[]|e1] fs2] eqn:Hu.
      + left. cbn [snd]. exact (Hlaw _ _ _ Hu).
      + right. exists e1, fs1, fs2. auto.
    - left. exact Hp. }
  unfold upload_and_parse, upload_try.
  destruct (save_upload file (temp_path_of filename file) fs)
    as [[[]|e0] fs1]; [|exact (Hhandler fs1)].
  destruct (str_eqb _ (str "unknown"));
    [exact (Hhandler fs1)|].
  match goal with
  | |- context [match ?d with Ok _ => _ | Raise _ => _ end] =>
      destruct d as [result|e1]
  end; [|exact (Hhandler fs1)].
  destruct (unlink (temp_path_of filename file) fs1) as [[[]|e2] fs2] eqn:Hu.
  - left. cbn [snd]. exact (Hlaw _ _ _ Hu).
  - exact (Hhandler fs2).
Qed.

End ServiceProperties.

(** *** The service layer on the small instance *)

Lemma document_failure_response_witness :
  let response :=
    ParseResponse.make (str "doc-3") [] [] [] (decimal 0 0) false
                       (Some (str "error")) in
  let request :=
    ParseRequest.make (str "doc-3") (str "/data/q3.pdf") (str "Pdf") in
  parse_document_with Toy.path_exists Toy.exn_str
                      (@Toy.read_broken Parsed.t) (@Toy.read_broken Parsed.t)
                      (@Toy.read_broken Parsed.t)
                      [(str "/data/q3.pdf", str "EPS: 2.15")] request
  = Ok response
  /\ Toy.path_exists [(str "/data/q3.pdf", str "EPS: 2.15")]
                     (str "/data/q3.pdf") = true.
Proof.
  intros response request.
  assert (H : parse_document_with Toy.path_exists Toy.exn_str
                (@Toy.read_broken Parsed.t) (@Toy.read_broken Parsed.t)
                (@Toy.read_broken Parsed.t)
                [(str "/data/q3.pdf", str "EPS: 2.15")] request
              = Ok response) by (vm_compute; reflexivity).
  split; [exact H|].
  destruct (@document_failure_response
              _ Toy.path_exists Toy.exn_str
              (@Toy.read_broken Parsed.t) (@Toy.read_broken Parsed.t)
              (@Toy.read_broken Parsed.t)
              [(str "/data/q3.pdf", str "EPS: 2.15")] request response
              H eq_refl) as [Hp _].
  exact Hp.
Defined.

Lemma document_readable_witness :
  exists r,
    Toy.parse_document
      [(str "/data/q3.pdf", str "EPS: 2.15")]
      (ParseRequest.make (str "doc-1") (str "/data/q3.pdf") (str "PDF"))
    = Ok (ParseResponse.make (str "doc-1") (Parsed.extracted_text r)
            (Parsed.tables r) (Parsed.metrics r) (Parsed.confidence r)
            true None)
    /\ Parsed.confidence r = decimal 8 1.
Proof.
  destruct (proj1 (@document_readable
                     _ Toy.extract_text _ Toy.to_string Toy.to_dict_records
                     Toy.columns_tolist _ Toy.path_exists Toy.read_pdf
                     Toy.read_excel Toy.read_csv Toy.exn_str
                     [(str "/data/q3.pdf", str "EPS: 2.15")]
                     (ParseRequest.make (str "doc-1") (str "/data/q3.pdf")
                                        (str "PDF"))
                     eq_refl)
                  eq_refl [str "EPS: 2.15"] eq_refl)
    as [r [_ [Hc H]]].
  exists r. split; [exact H | exact Hc].
Defined.

Lemma upload_dispatch_coherent_witness :
  exists response,
    Toy.upload_and_parse (str "q3.XLSX", str "Net income 12") []
    = (Ok response, [])
    /\ ParseResponse.document_id response = str "upload_q3.XLSX"
    /\ ParseResponse.success response = true.
Proof.
  edestruct (@upload_dispatch_coherent
               _ Toy.extract_text _ Toy.to_string Toy.to_dict_records
               Toy.columns_tolist _ Toy.path_exists Toy.read_pdf
               Toy.read_excel Toy.read_csv Toy.exn_str _ Toy.filename
               Toy.save_upload Toy.unlink Toy.path_suffix
               (str "q3.XLSX", str "Net income 12") []
               [(str "/tmp/q3.XLSX", str "Net income 12")] [])
    as [response [H [_ [Hid [Hs _]]]]].
  - reflexivity.
  - reflexivity.
  - vm_compute. discriminate.
  - intro E. vm_compute in E. discriminate E.
  - intros _. eexists. vm_compute. reflexivity.
  - intro E. vm_compute in E. discriminate E.
  - reflexivity.
  - exists response. split; [exact H | split; [exact Hid | exact Hs]].
Defined.

Lemma upload_raises_500_witness :
  Toy.upload_and_parse (str "notes.txt", str "EPS: 2") []
  = (Raise (HTTPException 500), []).
Proof.
  assert (H : fst (Toy.upload_and_parse (str "notes.txt", str "EPS: 2") [])
              = Raise (HTTPException 500)) by (vm_compute; reflexivity).
  destruct (@upload_raises_500
              _ Toy.extract_text _ Toy.to_string Toy.to_dict_records
              Toy.columns_tolist _ Toy.path_exists Toy.read_pdf
              Toy.read_excel Toy.read_csv Toy.exn_str _ Toy.filename
              Toy.save_upload Toy.unlink Toy.path_suffix _ _ _ H)
    as [_ | [fs1 [fs2 [_ Hu]]]]; [vm_compute; reflexivity | discriminate Hu].
Defined.

Lemma upload_unknown_extension_witness :
  fst (Toy.upload_and_parse (str "notes.txt", str "EPS: 2") [])
  = Raise (HTTPException 500).
Proof.
  destruct (@upload_unknown_extension
              _ Toy.extract_text _ Toy.to_string Toy.to_dict_records
              Toy.columns_tolist _ Toy.path_exists Toy.read_pdf
              Toy.read_excel Toy.read_csv Toy.exn_str _ Toy.filename
              Toy.save_upload Toy.unlink Toy.path_suffix
              (str "notes.txt", str "EPS: 2") [] eq_refl)
    as [H | [e [fs1 [fs2 [_ [Hu _]]]]]]; [exact H | discriminate Hu].
Defined.

Lemma upload_removes_temp_file_witness :
  Toy.path_exists
    (snd (Toy.upload_and_parse (str "q3.csv", str "Revenue 5 million") []))
    (str "/tmp/q3.csv")
  = false.
Proof.
  destruct (@upload_removes_temp_file
              _ Toy.extract_text _ Toy.to_string Toy.to_dict_records
              Toy.columns_tolist _ Toy.path_exists Toy.read_pdf
              Toy.read_excel Toy.read_csv Toy.exn_str _ Toy.filename
              Toy.save_upload Toy.unlink Toy.path_suffix
              (str "q3.csv", str "Revenue 5 million") [])
    as [H | [e [fs1 [fs2 [Hu _]]]]].
  - intros path fs0 fs1 Hu. injection Hu as <-.
    unfold Toy.path_exists.
    induction fs0 as [|entry fs0 IH]; [reflexivity|].
    cbn [filter]. destruct (str_eqb (fst entry) path) eqn:E; cbn [negb];
      [exact IH|]. cbn [existsb]. now rewrite E, IH.
  - exact H.
  - discriminate Hu.
Defined.
